(** * code_include.source_code: resolving a directive and a namespace to
      the source text published for it.

    The development embeds [src/code_include/source_code.py] function by
    function.  Python values are modelled as follows.

    - [str] is [string]; [dict] is stdpp's [gmap]; [set] is [gset] together
      with an arbitrary iteration order (section variable [iter]);
    - an exception is a constructor of [exception], and a function that can
      raise returns a [result];
    - the global [APPLICATION], the file system, the network and the
      [bs4.BeautifulSoup] parser are explicit parameters. *)

From Stdlib Require Import Ascii String.
From stdpp Require Import base option list strings gmap sorting.

Local Open Scope string_scope.
Local Open Scope nat_scope.
Local Open Scope stdpp_scope.
#[local] Disable Notation "_ ++ _" : string_scope.
Set Warnings "-register-all".

(** ** Exceptions and the result monad *)

(** The two messages with which the module raises [EnvironmentError]. *)
Inductive environment_message :=
  | NotConfiguredProperly
      (* "sphinx.ext.intersphinx was not configured properly." *)
  | UrlNotInProjects (url : string) (roots : list string).
      (* 'URL "{url}" isn't in any of the available projects, "{roots}".' *)

(** Every exception the module can raise.  The arguments of a formatted
    message are kept as they are passed to [format]. *)
Inductive exception :=
  | RuntimeError
      (* "No application could be found. Cannot render this node. ..." *)
  | EnvironmentError (msg : environment_message)
  | MissingDirective (directive : string) (options : list string)
  | MissingNamespace (namespace : string) (options : list string)
  | NotFoundFile (uri : string)
  | NotFoundUrl (uri : string)
  | ValueError      (* tuple unpacking of the wrong number of values *)
  | IndexError      (* list index out of range *)
  | TypeError       (* [list(None)] *)
  | AttributeError  (* attribute access on [None] *)
  | IOError.        (* [open] of a path that is not a regular file *)

Inductive result (A : Type) :=
  | Return (a : A)
  | Raise (e : exception).
Arguments Return {A} a.
Arguments Raise {A} e.

#[global] Instance result_ret : MRet result := @Return.
#[global] Instance result_bind : MBind result := λ A B f m,
  match m with
  | Return a => f a
  | Raise e => Raise e
  end.

(** The semantic kinds of failure of the design document (section 7). *)
Inductive error_kind :=
  | ConfigurationError
  | UnknownRole
  | UnknownSymbol
  | RootNotFound
  | PageNotFoundLocal
  | PageNotFoundRemote.

(** Which kind an exception of the module belongs to; [None] for a fault
    outside the taxonomy. *)
Definition kind_of (e : exception) : option error_kind :=
  match e with
  | RuntimeError => Some ConfigurationError
  | EnvironmentError NotConfiguredProperly => Some ConfigurationError
  | EnvironmentError (UrlNotInProjects _ _) => Some RootNotFound
  | MissingDirective _ _ => Some UnknownRole
  | MissingNamespace _ _ => Some UnknownSymbol
  | NotFoundFile _ => Some PageNotFoundLocal
  | NotFoundUrl _ => Some PageNotFoundRemote
  | ValueError | IndexError | TypeError | AttributeError | IOError => None
  end.

(** ** The Python built-ins the module uses *)
Module Py.

(** [s.split(sep)] for a one-character separator: never the empty list. *)
Fixpoint str_split (sep : ascii) (s : string) : list string :=
  match s with
  | EmptyString => [EmptyString]
  | String a s' =>
      if decide (a = sep) then EmptyString :: str_split sep s'
      else match str_split sep s' with
           | h :: t => String a h :: t
           | [] => [String a EmptyString]
           end
  end.

(** [sep.join(l)] *)
Fixpoint str_join (sep : string) (l : list string) : string :=
  match l with
  | [] => EmptyString
  | [x] => x
  | x :: l' => x +:+ sep +:+ str_join sep l'
  end.

(** [s.count(c)] for a one-character [c] *)
Fixpoint str_count (c : ascii) (s : string) : nat :=
  match s with
  | EmptyString => 0
  | String a s' => (if decide (a = c) then 1 else 0) + str_count c s'
  end.

(** [s.startswith(p)] *)
Fixpoint startswith (s p : string) {struct p} : bool :=
  match p, s with
  | EmptyString, _ => true
  | String b p', String a s' => if decide (a = b) then startswith s' p' else false
  | String _ _, EmptyString => false
  end.

(** [l[:-n]] for [n > 0]: the stop index [len(l) - n] is clamped at 0. *)
Definition slice_to_neg {A} (n : nat) (l : list A) : list A :=
  take (length l - n) l.

(** [l[-n:]] for [n > 0]: the start index [len(l) - n] is clamped at 0. *)
Definition slice_from_neg {A} (n : nat) (l : list A) : list A :=
  drop (length l - n) l.

(** [l[-1]], which raises [IndexError] on the empty list. *)
Definition index_last {A} (l : list A) : result A :=
  match last l with
  | Some x => Return x
  | None => Raise IndexError
  end.

(** [a, b = l], which raises [ValueError] unless [l] has two items. *)
Definition unpack2 {A} (l : list A) : result (A * A) :=
  match l with
  | [a; b] => Return (a, b)
  | _ => Raise ValueError
  end.

(** [sorted(xs)] on strings: the order is that of the code points.
    [sorted] is a stable sort; on strings, where equivalent items are
    equal, its result is the only sorted permutation of the input. *)
Definition sorted (xs : list string) : list string :=
  merge_sort String.le xs.

End Py.

(** ** [_get_module_tag] *)

(** ["_modules/{base}.html".format(base=base)] *)
Definition format_modules_html (base : string) : string :=
  "_modules/" +:+ base +:+ ".html".

Definition _get_module_tag (namespace directive : string)
  : result (string * string) :=
  let tokens := Py.str_split "." namespace in
  if decide (directive = "py:method") then
    let base := Py.str_join "/" (Py.slice_to_neg 2 tokens) in
    Return (format_modules_html base, Py.str_join "." (Py.slice_from_neg 2 tokens))
  else
    let base := Py.str_join "/" (Py.slice_to_neg 1 tokens) in
    last_token ← Py.index_last tokens;
    Return (format_modules_html base, last_token).

(** ** The application object and its configuration *)

(** An entry of the inventory:
    (project name, project version, location URI, display text). *)
Definition inventory_entry : Type := string * string * string * string.

(** [dict[str, dict[str, tuple[str, str, str, str]]]] *)
Abbreviation inventory := (gmap string (gmap string inventory_entry)).

(** A value of [intersphinx_mapping]: a string, a sequence (of which the
    module reads the first item only), or [None]. *)
Inductive mapping_value :=
  | VStr (s : string)
  | VSeq (items : list string)
  | VNone.

(** The attributes of the Sphinx application that the module reads.
    [None] stands for an attribute that is missing on the way, so that
    reading it raises [AttributeError]. *)
Record application := {
  (* [APPLICATION.config.intersphinx_mapping.items()], in dict order *)
  config_intersphinx_mapping : option (list (string * mapping_value));
  (* [APPLICATION.builder.env.intersphinx_inventory] *)
  builder_env_intersphinx_inventory : option inventory;
}.

(** ** The outside world: files and the network *)

Inductive fs_node :=
  | RegularFile (contents : string)
  | Directory.

(** What [urllib2.urlopen(uri).read()] can raise. *)
Inductive url_error :=
  | ConnectionFailure
  | Timeout
  | BadStatus (code : nat)
  | MalformedResponse.

Record world := {
  files : gmap string fs_node;
  urlopen_read : string → url_error + string;
}.

Module os_path.

(** [posixpath.isabs] *)
Definition isabs (s : string) : bool := Py.startswith s "/".

Definition isfile (w : world) (path : string) : bool :=
  match files w !! path with
  | Some (RegularFile _) => true
  | _ => false
  end.

End os_path.

(** [open(path, "r")] followed by [handler.read()] *)
Definition open_read (w : world) (path : string) : result string :=
  match files w !! path with
  | Some (RegularFile contents) => Return contents
  | _ => Raise IOError
  end.

(** ** The parsed document, as [bs4] presents it *)

(** The value of an attribute: a string, or a list of strings for the
    attributes [bs4] treats as multi-valued ([class] among them). *)
Inductive attr_value :=
  | AttrStr (s : string)
  | AttrList (l : list string).

(** A node of the tree.  [uid] stands for the identity of the Python
    object: [decompose] removes the object it is called on. *)
Inductive node :=
  | NavigableString (s : string)
  | Tag (uid : nat) (name : string) (attrs : gmap string attr_value)
        (contents : list node).

Module bs4.

(** Whether the value of an attribute matches the string searched for:
    a multi-valued attribute matches when one of its values does, or
    when its values joined by a space do. *)
Definition value_matches (v : attr_value) (against : string) : bool :=
  match v with
  | AttrStr s => bool_decide (s = against)
  | AttrList l =>
      bool_decide (against ∈ l) || bool_decide (Py.str_join " " l = against)
  end.

(** The filter of [find_all(name, {key: against})] *)
Definition matches (name key against : string) (n : node) : bool :=
  match n with
  | NavigableString _ => false
  | Tag _ nm attrs _ =>
      bool_decide (nm = name) &&
      match attrs !! key with
      | Some v => value_matches v against
      | None => false
      end
  end.

(** A node and everything below it, in document order. *)
Fixpoint self_and_descendants (n : node) : list node :=
  n :: match n with
       | NavigableString _ => []
       | Tag _ _ _ cs => cs ≫= self_and_descendants
       end.

(** [soup.descendants] *)
Definition descendants (soup : list node) : list node :=
  soup ≫= self_and_descendants.

Definition find_all (soup : list node) (name key against : string)
  : list node :=
  filter (λ n, matches name key against n = true) (descendants soup).

(** [soup.find(...)]: the first result of [find_all], or [None]. *)
Definition find (soup : list node) (name key against : string)
  : option node :=
  head (find_all soup name key against).

(** What is left of a node once the object [u] is taken out of the
    tree: nothing if the node is that object. *)
Fixpoint without (u : nat) (n : node) : list node :=
  match n with
  | NavigableString _ => [n]
  | Tag v nm attrs cs =>
      if decide (v = u) then []
      else [Tag v nm attrs (cs ≫= without u)]
      end.

(** [element.decompose()], as seen from the tree it belongs to.  A text
    node is never decomposed by the module. *)
Definition decompose (element : node) (soup : list node) : list node :=
  match element with
  | NavigableString _ => soup
  | Tag u _ _ _ => soup ≫= without u
  end.

(** [node.getText()]: the strings below the node, concatenated. *)
Fixpoint getText (n : node) : string :=
  match n with
  | NavigableString s => s
  | Tag _ _ _ cs => foldr (λ c acc, getText c +:+ acc) EmptyString cs
  end.

End bs4.

(** ** The functions of the module *)

Section source_code.

(** The module-level global [APPLICATION]; [None] until the extension is
    set up. *)
Variable APPLICATION : option application.

(** The order in which Python iterates over a set: some enumeration of
    its members, about which nothing else is assumed. *)
Variable iter : gset string → list string.

(** The files and the network at the time of the call. *)
Variable w : world.

(** [bs4.BeautifulSoup(contents, "html.parser")]: the top-level nodes
    of the parsed document. *)
Variable BeautifulSoup : string → list node.

(** The loop body of [_get_all_intersphinx_roots]. *)
Definition add_root (roots : gset string) (item : string * mapping_value)
  : result (gset string) :=
  let (key, value) := item in
  match value with
  | VStr _ => Return (roots ∪ {[key]})
  | VSeq items =>
      match items with
      | first :: _ => Return (roots ∪ {[first]})
      | [] => Raise IndexError
      end
  | VNone => Raise TypeError
  end.

Fixpoint add_roots (roots : gset string)
    (mappings : list (string * mapping_value)) : result (gset string) :=
  match mappings with
  | [] => Return roots
  | item :: rest => roots' ← add_root roots item; add_roots roots' rest
  end.

(** The decorator [helper.memoize] keeps the first result for the later
    calls; a single call is what is modelled. *)
Definition _get_all_intersphinx_roots : result (gset string) :=
  match APPLICATION ≫= config_intersphinx_mapping with
  | None => Raise (EnvironmentError NotConfiguredProperly)
  | Some mappings => add_roots ∅ mappings
  end.

Definition _get_app_inventory : result inventory :=
  match APPLICATION with
  | None => Return ∅
  | Some app =>
      match builder_env_intersphinx_inventory app with
      | Some cache => Return cache
      | None => Raise (EnvironmentError NotConfiguredProperly)
      end
  end.

(** [roots] is the sequence the [for] loop goes through. *)
Fixpoint _get_project_url_root (uri : string) (roots : list string)
  : string :=
  match roots with
  | [] => EmptyString
  | root :: rest =>
      if Py.startswith uri root then root
      else _get_project_url_root uri rest
  end.

(** The loop [for div in soup.find_all(...): div.decompose()]. *)
Definition decompose_all (found : list node) (soup : list node)
  : list node :=
  foldl (λ soup div, bs4.decompose div soup) soup found.

(** Lines 136-143 of [_get_source_code]: from the text of the page to
    the text of the node. *)
Definition extract (contents tag : string) : result string :=
  let soup := BeautifulSoup contents in
  let soup := decompose_all (bs4.find_all soup "a" "class" "viewcode-back") soup in
  match bs4.find soup "div" "id" tag with
  | Some node => Return (bs4.getText node)
  | None => Raise AttributeError
  end.

(** Lines 124-134 of [_get_source_code]: the text of the page. *)
Definition fetch (uri : string) : result string :=
  if os_path.isabs uri then
    if negb (os_path.isfile w uri) then Raise (NotFoundFile uri)
    else open_read w uri
  else
    match urlopen_read w uri with
    | inr contents => Return contents
    | inl _ => Raise (NotFoundUrl uri)
    end.

Definition _get_source_code (uri tag : string) : result string :=
  contents ← fetch uri;
  extract contents tag.

(** Lines 175-198 of [get_source_code]: from the directive and the
    namespace to the URI the inventory stores for them. *)
Definition lookup (directive namespace : string) : result string :=
  cache ← _get_app_inventory;
  if decide (cache = ∅) then Raise RuntimeError
  else
    typed_directive_data ←
      match cache !! directive with
      | Some data => Return data
      | None =>
          Raise (MissingDirective directive
                   (Py.sorted (iter (dom cache))))
      end;
    match typed_directive_data !! namespace with
    | Some (_, _, uri, _) => Return uri
    | None =>
        Raise (MissingNamespace namespace
                 (Py.sorted (iter (dom typed_directive_data))))
    end.

(** Lines 200-214 of [get_source_code]. *)
Definition locate_and_fetch (directive uri : string) : result string :=
  '(url, tag) ← Py.unpack2 (Py.str_split "#" uri);
  available_roots ← _get_all_intersphinx_roots;
  let root := _get_project_url_root url (iter available_roots) in
  if decide (root = EmptyString) then
    Raise (EnvironmentError
             (UrlNotInProjects url (Py.sorted (iter available_roots))))
  else
    '(module_path, tag) ← _get_module_tag tag directive;
    let module_url := root +:+ "/" +:+ module_path in
    _get_source_code module_url tag.

Definition get_source_code (directive namespace : string)
  : result string :=
  uri ← lookup directive namespace;
  locate_and_fetch directive uri.

End source_code.

(** ** A reader for plain, well-nested HTML

    An instance of the parser parameter for pages made of elements with
    double-quoted attributes and of text: no entities, comments, void
    elements or implied end tags.  On such pages it yields the tree that
    [bs4] builds with ["html.parser"]; object identities are numbered in
    document order. *)
Module HtmlLite.

Inductive token :=
  | StartTag (name : string) (attrs : list (string * string))
  | EndTag (name : string)
  | Data (text : string).

(** The text before the first [c], and the text after it if there is
    one. *)
Fixpoint break_at (c : ascii) (s : string) : string * option string :=
  match s with
  | EmptyString => (EmptyString, None)
  | String a s' =>
      if decide (a = c) then (EmptyString, Some s')
      else let (before, after) := break_at c s' in (String a before, after)
  end.

Fixpoint skip_spaces (s : string) : string :=
  match s with
  | String a s' => if Ascii.is_space a then skip_spaces s' else s
  | EmptyString => s
  end.

(** The double quote that delimits the value of an attribute. *)
Definition dquote : ascii := "034"%char.

(** [key="value"] pairs, separated by spaces. *)
Fixpoint read_attrs (fuel : nat) (s : string) : list (string * string) :=
  match fuel with
  | O => []
  | S fuel =>
      match break_at "=" (skip_spaces s) with
      | (key, Some (String q rest)) =>
          if decide (q = dquote) then
            match break_at dquote rest with
            | (value, Some rest') => (key, value) :: read_attrs fuel rest'
            | (_, None) => []
            end
          else []
      | _ => []
      end
  end.

(** The token for the text between [<] and [>]. *)
Definition read_tag (body : string) : token :=
  match body with
  | String "/" name => EndTag name
  | _ =>
      match break_at " " body with
      | (name, Some rest) => StartTag name (read_attrs (String.length rest) rest)
      | (name, None) => StartTag name []
      end
  end.

Fixpoint tokenize (fuel : nat) (s : string) : list token :=
  match fuel with
  | O => []
  | S fuel =>
      match s with
      | EmptyString => []
      | String "<" rest =>
          match break_at ">" rest with
          | (body, Some rest') => read_tag body :: tokenize fuel rest'
          | (_, None) => [Data s]
          end
      | _ =>
          match break_at "<" s with
          | (text, Some rest') => Data text :: tokenize fuel (String "<" rest')
          | (text, None) => [Data text]
          end
      end
  end.

(** The attribute dictionary of a tag: [class] holds the list of its
    whitespace-separated values, and a repeated attribute keeps its last
    value. *)
Definition attrs_of (l : list (string * string)) : gmap string attr_value :=
  foldl (λ m kv,
           <[kv.1 := if decide (kv.1 = "class") then AttrList (String.words kv.2)
                     else AttrStr kv.2]> m) ∅ l.

(** The nodes up to the end tag that closes the enclosing element, the
    tokens after it, and the next free identity.  An end tag outside any
    element is dropped. *)
Fixpoint build (fuel depth uid : nat) (toks : list token)
  : list node * list token * nat :=
  match fuel with
  | O => ([], [], uid)
  | S fuel =>
      match toks with
      | [] => ([], [], uid)
      | Data text :: rest =>
          let '(nodes, rest', uid') := build fuel depth uid rest in
          (NavigableString text :: nodes, rest', uid')
      | EndTag _ :: rest =>
          match depth with
          | O => build fuel depth uid rest
          | S _ => ([], rest, uid)
          end
      | StartTag name attrs :: rest =>
          let '(children, rest1, uid1) := build fuel (S depth) (S uid) rest in
          let '(nodes, rest2, uid2) := build fuel depth uid1 rest1 in
          (Tag uid name (attrs_of attrs) children :: nodes, rest2, uid2)
      end
  end.

Definition parse (contents : string) : list node :=
  let toks := tokenize (S (String.length contents)) contents in
  (build (S (length toks)) 0 0 toks).1.1.

End HtmlLite.

(** * Vocabulary of the properties *)

(** [p] is a literal prefix of [s]. *)
Definition is_prefix (p s : string) : Prop := ∃ t, s = p +:+ t.

(** What the payload of a "not found" error is for a dictionary: its keys,
    each once, in increasing order. *)
Definition sorted_keys_of {V} (options : list string) (m : gmap string V)
  : Prop :=
  Sorted String.le options ∧ NoDup options ∧
  ∀ k, k ∈ options ↔ is_Some (m !! k).

(** The inventory cannot be had: no application, no inventory on the
    application, or an inventory that was never filled. *)
Definition inventory_unavailable (APPLICATION : option application) : Prop :=
  match APPLICATION with
  | None => True
  | Some app =>
      match builder_env_intersphinx_inventory app with
      | None => True
      | Some cache => cache = ∅
      end
  end.

(** A value the loop of [_get_all_intersphinx_roots] goes through without
    a fault: a string, or a sequence with a first item. *)
Definition usable_value (item : string * mapping_value) : Prop :=
  match item.2 with
  | VStr _ => True
  | VSeq items => items ≠ []
  | VNone => False
  end.

(** The root an entry of the mapping contributes: its key when the value
    is a string, the first item of the value when it is a sequence. *)
Inductive contributes : string * mapping_value → string → Prop :=
  | contributes_key key s : contributes (key, VStr s) key
  | contributes_first key first rest :
      contributes (key, VSeq (first :: rest)) first.

(** The links back to the documentation that Sphinx puts in a page of
    source code. *)
Definition is_backlink (n : node) : bool :=
  bs4.matches "a" "class" "viewcode-back" n.

(** The removal as the design document words it: every element that is
    both an anchor and of the back-link class goes, wherever it is.  A
    node without the back-links below it; nothing if it is one. *)
Fixpoint strip_backlinks_node (n : node) : list node :=
  match n with
  | NavigableString _ => [n]
  | Tag u nm attrs cs =>
      if is_backlink n then []
      else [Tag u nm attrs (cs ≫= strip_backlinks_node)]
  end.

Definition strip_backlinks (soup : list node) : list node :=
  soup ≫= strip_backlinks_node.

Definition uid_of (n : node) : option nat :=
  match n with
  | NavigableString _ => None
  | Tag u _ _ _ => Some u
  end.

(** The identities of the elements of a document: distinct objects have
    distinct identities. *)
Definition identities (soup : list node) : list nat :=
  omap uid_of (bs4.descendants soup).

(** A node without the elements below it whose identity satisfies [P];
    nothing if its own does. *)
Fixpoint prune (P : nat → bool) (n : node) : list node :=
  match n with
  | NavigableString _ => [n]
  | Tag u nm attrs cs =>
      if P u then [] else [Tag u nm attrs (cs ≫= prune P)]
  end.

(** Two nodes with the same text, or the same identity, name and
    attributes. *)
Definition same_label (n m : node) : Prop :=
  match n, m with
  | NavigableString s, NavigableString t => s = t
  | Tag u nm attrs _, Tag u' nm' attrs' _ => u = u' ∧ nm = nm' ∧ attrs = attrs'
  | _, _ => False
  end.

(** The page of the example of the design document, and a page on which
    the identifier is carried by an element that is not a [div]. *)
Definition quoted (s : string) : string :=
  String HtmlLite.dquote (s +:+ String HtmlLite.dquote EmptyString).

Definition example_page : string :=
  "<div id=" +:+ quoted "Cls.meth" +:+ ">code</div>" +:+
  "<a class=" +:+ quoted "viewcode-back" +:+ ">back</a>".

Definition span_page : string :=
  "<span id=" +:+ quoted "Cls.meth" +:+ ">code</span>".

(** A world with one file and no network. *)
Definition one_file (path contents : string) : world :=
  {| files := {[path := RegularFile contents]};
     urlopen_read := λ _, inl ConnectionFailure |}.

(** An application with two projects, one configured with a sequence and
    one with a string, and an inventory of two directives. *)
Definition example_inventory : inventory :=
  {[ "py:method" :=
       {[ "pkg.mod.Cls.meth" :=
            ("proj", "1.0", "/docs/api/pkg.html#pkg.mod.Cls.meth", "-") ]};
     "py:function" :=
       {[ "pkg.mod.func" :=
            ("proj", "1.0", "/elsewhere/api.html#pkg.mod.func", "-") ]} ]}.

Definition example_app : application :=
  {| config_intersphinx_mapping :=
       Some [("python", VSeq ["/docs"; "objects.inv"]);
             ("/old/", VStr "old.inv")];
     builder_env_intersphinx_inventory := Some example_inventory |}.

(** An application whose inventory was never filled. *)
Definition empty_app : application :=
  {| config_intersphinx_mapping := Some [];
     builder_env_intersphinx_inventory := Some ∅ |}.

(** An application with one project, configured with a string. *)
Definition old_app : application :=
  {| config_intersphinx_mapping := Some [("/old/", VStr "old.inv")];
     builder_env_intersphinx_inventory := Some example_inventory |}.

(** The page of the example, where [get_source_code] looks for it. *)
Definition example_world : world :=
  one_file "/docs/_modules/pkg/mod.html" example_page.

(** * Vocabulary of the further properties *)

(** A node with the back-links below it taken out. *)
Definition inner_strip (n : node) : node :=
  match n with
  | NavigableString _ => n
  | Tag u nm attrs cs => Tag u nm attrs (cs ≫= strip_backlinks_node)
  end.

(** The nodes at and below a node that are not inside a back-link, in
    document order. *)
Fixpoint visible (n : node) : list node :=
  match n with
  | NavigableString _ => [n]
  | Tag _ _ _ cs => if is_backlink n then [] else n :: (cs ≫= visible)
  end.

(** The text at and below a node that is not inside a back-link. *)
Fixpoint visible_text (n : node) : string :=
  match n with
  | NavigableString s => s
  | Tag _ _ _ cs =>
      foldr (λ c acc, (if is_backlink c then EmptyString else visible_text c)
                      +:+ acc) EmptyString cs
  end.


(** An application of the old configuration format, [{uri: None}]. *)
Definition none_app : application :=
  {| config_intersphinx_mapping :=
       Some [("python", VSeq ["/docs"; "objects.inv"]); ("/old/", VNone)];
     builder_env_intersphinx_inventory := Some example_inventory |}.

(** An application whose inventory holds a URI without anchor. *)
Definition plain_app : application :=
  {| config_intersphinx_mapping :=
       Some [("python", VSeq ["/docs"; "objects.inv"])];
     builder_env_intersphinx_inventory :=
       Some {[ "py:module" :=
                 {[ "pkg.mod" := ("proj", "1.0", "/docs/api/pkg.html", "-") ]} ]} |}.

(** A page on which the back-link is inside the element of the source
    code, as Sphinx writes it. *)
Definition docs_page : string :=
  "<div id=" +:+ quoted "pkg.mod.func" +:+ ">" +:+
  "<span>def func():</span>" +:+
  "<a class=" +:+ quoted "viewcode-back" +:+ " href=" +:+ quoted "api.html"
  +:+ ">[docs]</a>" +:+
  " pass</div>".

(** * Properties *)

(** ** Strings and lists *)

Lemma app_String (a : ascii) (s t : string) :
  String a s +:+ t = String a (s +:+ t).
Proof. reflexivity. Qed.

Lemma app_empty_l (t : string) : EmptyString +:+ t = t.
Proof. reflexivity. Qed.

Lemma str_split_not_nil (c : ascii) (s : string) : Py.str_split c s ≠ [].
Proof.
  induction s as [|a s IH]; simpl; [done|].
  case_decide; [done|]. by destruct (Py.str_split c s).
Qed.

Lemma str_split_free (c : ascii) (s : string) :
  Py.str_count c s = 0 → Py.str_split c s = [s].
Proof.
  induction s as [|a s IH]; simpl; [done|].
  case_decide; [done|]. intros Hs. by rewrite IH.
Qed.

Lemma str_split_app (c : ascii) (x rest : string) :
  Py.str_count c x = 0 →
  Py.str_split c (x +:+ String c rest) = x :: Py.str_split c rest.
Proof.
  induction x as [|a x IH]; simpl.
  - intros _. by rewrite decide_True.
  - case_decide; [done|]. intros Hx. by rewrite IH.
Qed.

(** Splitting undoes joining, when no item holds the separator. *)
Lemma str_split_join (c : ascii) (l : list string) :
  l ≠ [] → Forall (λ x, Py.str_count c x = 0) l →
  Py.str_split c (Py.str_join (String c EmptyString) l) = l.
Proof.
  induction l as [|x l IH]; [done|]. intros _ Hl.
  apply Forall_cons in Hl as [Hx Hl]. destruct l as [|y l].
  - simpl. by apply str_split_free.
  - change (Py.str_join (String c EmptyString) (x :: y :: l))
      with (x +:+ String c EmptyString +:+ Py.str_join (String c EmptyString) (y :: l)).
    change (String c EmptyString +:+ ?t) with (String c t).
    rewrite str_split_app by done. by rewrite IH.
Qed.

Lemma slice_to_neg_app {A} (n : nat) (front back : list A) :
  length back = n `min` length (front ++ back) →
  Py.slice_to_neg n (front ++ back) = front.
Proof.
  intros Hlen. unfold Py.slice_to_neg. rewrite length_app in *.
  destruct (decide (n ≤ length front + length back)).
  - replace (length front + length back - n) with (length front) by lia.
    by rewrite take_app_length.
  - assert (length front = 0) as Hf by lia.
    apply nil_length_inv in Hf as ->. simpl.
    by replace (length back - n) with 0 by lia.
Qed.

Lemma slice_from_neg_app {A} (n : nat) (front back : list A) :
  length back = n `min` length (front ++ back) →
  Py.slice_from_neg n (front ++ back) = back.
Proof.
  intros Hlen. unfold Py.slice_from_neg. rewrite length_app in *.
  destruct (decide (n ≤ length front + length back)).
  - replace (length front + length back - n) with (length front) by lia.
    by rewrite drop_app_length.
  - assert (length front = 0) as Hf by lia.
    apply nil_length_inv in Hf as ->. simpl.
    by replace (length back - n) with 0 by lia.
Qed.

Lemma index_last_snoc {A} (front : list A) (x : A) :
  Py.index_last (front ++ [x]) = Return x.
Proof. unfold Py.index_last. by rewrite last_snoc. Qed.

Lemma index_last_is_Return {A} (l : list A) :
  l ≠ [] → ∃ x, Py.index_last l = Return x.
Proof.
  intros Hl. unfold Py.index_last. destruct (last l) as [x|] eqn:E; [eauto|].
  by apply last_None in E.
Qed.

(** ** [_get_module_tag] *)

Example get_module_tag_docstring :
  _get_module_tag "foo.bar.ClassName.get_method_data" "py:method"
  = Return ("_modules/foo/bar.html", "ClassName.get_method_data").
Proof. reflexivity. Qed.

(** C2. Under the method directive the page path is made of every token
    but the last two and the anchor is the last two tokens joined by a
    dot; under any other directive the page path is made of every token
    but the last and the anchor is the last token.  The two examples of
    the design document are instances. *)
Theorem get_module_tag_paths :
  (∀ front back : list string,
     Forall (λ x, Py.str_count "." x = 0) (front ++ back) →
     length back = 2 `min` length (front ++ back) →
     _get_module_tag (Py.str_join "." (front ++ back)) "py:method"
     = Return (format_modules_html (Py.str_join "/" front),
               Py.str_join "." back)) ∧
  (∀ (directive : string) (front : list string) (last_token : string),
     directive ≠ "py:method" →
     Forall (λ x, Py.str_count "." x = 0) (front ++ [last_token]) →
     _get_module_tag (Py.str_join "." (front ++ [last_token])) directive
     = Return (format_modules_html (Py.str_join "/" front), last_token)) ∧
  _get_module_tag (Py.str_join "." ["pkg"; "mod"; "Cls"; "meth"]) "py:method"
  = Return ("_modules/pkg/mod.html", "Cls.meth") ∧
  _get_module_tag (Py.str_join "." ["pkg"; "mod"; "func"]) "py:function"
  = Return ("_modules/pkg/mod.html", "func").
Proof.
  split; [|split; [|split; reflexivity]].
  - intros front back Hfree Hlen. unfold _get_module_tag.
    rewrite decide_True by done.
    destruct (decide (front ++ back = [])) as [Hnil|Hne].
    + apply app_eq_nil in Hnil as [-> ->]. reflexivity.
    + rewrite str_split_join by done.
      by rewrite slice_to_neg_app, slice_from_neg_app.
  - intros directive front last_token Hd Hfree. unfold _get_module_tag.
    rewrite decide_False by done.
    rewrite str_split_join by (done || by destruct front).
    rewrite slice_to_neg_app by (rewrite length_app; simpl length; lia).
    by rewrite index_last_snoc.
Qed.

Lemma get_module_tag_paths_witness :
  _get_module_tag (Py.str_join "." (["a"; "b"] ++ ["C"; "m"])) "py:method"
  = Return (format_modules_html (Py.str_join "/" ["a"; "b"]),
            Py.str_join "." ["C"; "m"]) ∧
  _get_module_tag (Py.str_join "." (["a"; "b"] ++ ["f"])) "py:class"
  = Return (format_modules_html (Py.str_join "/" ["a"; "b"]), "f").
Proof.
  split.
  - apply (proj1 get_module_tag_paths ["a"; "b"] ["C"; "m"]).
    + repeat constructor.
    + reflexivity.
  - apply (proj1 (proj2 get_module_tag_paths) "py:class" ["a"; "b"] "f").
    + discriminate.
    + repeat constructor.
Defined.

(** C9. [_get_module_tag] returns a pair for every directive and every
    namespace; under the method directive a namespace of a single token
    gives a page path with an empty component, and no error. *)
Theorem get_module_tag_total :
  (∀ namespace directive : string,
     ∃ path anchor, _get_module_tag namespace directive = Return (path, anchor)) ∧
  (∀ namespace : string,
     length (Py.str_split "." namespace) < 2 →
     _get_module_tag namespace "py:method" = Return ("_modules/.html", namespace)).
Proof.
  split.
  - intros namespace directive. unfold _get_module_tag. case_decide; [eauto|].
    destruct (index_last_is_Return (Py.str_split "." namespace)) as [x ->];
      [apply str_split_not_nil|]. simpl. eauto.
  - intros namespace Hlen. unfold _get_module_tag. rewrite decide_True by done.
    pose proof (str_split_not_nil "." namespace) as Hne.
    destruct (Py.str_split "." namespace) as [|x [|y l]] eqn:E;
      [done| |simpl in Hlen; lia].
    assert (x = namespace) as ->; [|reflexivity].
    clear Hlen Hne. revert x E. induction namespace as [|a s IH]; simpl.
    + intros x ?. by simplify_eq.
    + intros x E. pose proof (str_split_not_nil "." s) as Hne.
      case_decide; [by simplify_eq|].
      destruct (Py.str_split "." s) as [|h [|]] eqn:Es; simplify_eq.
      f_equal. by apply IH.
Qed.

Lemma get_module_tag_total_witness :
  _get_module_tag "meth" "py:method" = Return ("_modules/.html", "meth").
Proof.
  apply (proj2 get_module_tag_total "meth"). simpl. lia.
Defined.

(** ** Sorting and prefixes *)

Lemma sorted_Sorted (xs : list string) : Sorted String.le (Py.sorted xs).
Proof. apply (Sorted_merge_sort String.le). Qed.

Lemma sorted_Permutation (xs : list string) : Py.sorted xs ≡ₚ xs.
Proof. apply merge_sort_Permutation. Qed.


Lemma startswith_is_prefix (s p : string) :
  Py.startswith s p = true ↔ is_prefix p s.
Proof.
  unfold is_prefix. revert s. induction p as [|b p IH]; intros s; simpl.
  - split; [intros _; exists s; reflexivity|intros _; reflexivity].
  - destruct s as [|a s].
    + split; [done|]. by intros [t ?].
    + case_decide as Hab.
      * subst b. rewrite IH. split; intros [t Ht]; exists t.
        -- by rewrite Ht.
        -- rewrite app_String in Ht. by simplify_eq.
      * split; [done|]. intros [t Ht]. rewrite app_String in Ht.
        by simplify_eq.
Qed.

(** ** The lookup in the inventory *)

Section lookup_properties.

Variable iter : gset string → list string.
Hypothesis iter_elements : ∀ X, iter X ≡ₚ elements X.


Lemma sorted_iter_dom {V} (m : gmap string V) :
  sorted_keys_of (Py.sorted (iter (dom m))) m.
Proof using iter_elements.
  split; [apply sorted_Sorted|]. split.
  - rewrite sorted_Permutation, iter_elements. apply NoDup_elements.
  - intros k. rewrite sorted_Permutation, iter_elements, elem_of_elements.
    apply elem_of_dom.
Qed.

(** C1 (as amended). With a non-empty inventory, the lookup returns the
    third component of the tuple stored for a directive and a namespace
    that are present; it raises [MissingDirective] with the sorted
    directives of the inventory when the directive is absent, and
    [MissingNamespace] with the sorted namespaces of the directive when
    the directive is present and the namespace absent under it. *)
Theorem lookup_in_inventory (app : application) (cache : inventory)
    (directive namespace : string) :
  builder_env_intersphinx_inventory app = Some cache →
  cache ≠ ∅ →
  match cache !! directive with
  | None =>
      ∃ options,
        lookup (Some app) iter directive namespace
        = Raise (MissingDirective directive options) ∧
        kind_of (MissingDirective directive options) = Some UnknownRole ∧
        sorted_keys_of options cache
  | Some data =>
      match data !! namespace with
      | None =>
          ∃ options,
            lookup (Some app) iter directive namespace
            = Raise (MissingNamespace namespace options) ∧
            kind_of (MissingNamespace namespace options) = Some UnknownSymbol ∧
            sorted_keys_of options data
      | Some (_, _, uri, _) =>
          lookup (Some app) iter directive namespace = Return uri
      end
  end.
Proof using iter_elements.
  intros Hinv Hne. unfold lookup, _get_app_inventory. rewrite Hinv. simpl.
  rewrite decide_False by done.
  destruct (cache !! directive) as [data|] eqn:Hd; simpl.
  - destruct (data !! namespace) as [[[[? ?] uri] ?]|] eqn:Hn; [done|].
    eexists. split; [done|]. split; [done|]. apply sorted_iter_dom.
  - eexists. split; [done|]. split; [done|]. apply sorted_iter_dom.
Qed.

(** C7. Without an application, without an inventory on the application,
    or with an inventory that was never filled, [get_source_code] raises
    the same configuration error whatever the directive and the
    namespace are, and whatever the roots, the files and the network
    are: nothing is looked up. *)
Theorem get_source_code_unavailable (APPLICATION : option application) :
  inventory_unavailable APPLICATION →
  ∃ e, kind_of e = Some ConfigurationError ∧
    ∀ (w : world) (BeautifulSoup : string → list node)
      (directive namespace : string),
      lookup APPLICATION iter directive namespace = Raise e ∧
      get_source_code APPLICATION iter w BeautifulSoup directive namespace
      = Raise e.
Proof.
  unfold inventory_unavailable, get_source_code, lookup, _get_app_inventory.
  destruct APPLICATION as [app|].
  - destruct (builder_env_intersphinx_inventory app) as [cache|].
    + intros ->. exists RuntimeError. split; [done|]. intros. simpl.
      by rewrite decide_True.
    + intros _. exists (EnvironmentError NotConfiguredProperly). done.
  - intros _. exists RuntimeError. split; [done|]. intros. simpl.
    by rewrite decide_True.
Qed.

End lookup_properties.

(** ** The roots of the configured projects *)


Lemma add_roots_members (mappings : list (string * mapping_value)) :
  ∀ roots : gset string,
    Forall usable_value mappings →
    ∃ roots', add_roots roots mappings = Return roots' ∧
      ∀ r, r ∈ roots' ↔
           r ∈ roots ∨ ∃ item, item ∈ mappings ∧ contributes item r.
Proof.
  induction mappings as [|[key value] rest IH]; intros roots Hok.
  - exists roots. split; [done|]. intros r. split; [auto|].
    intros [?|(item & Hin & _)]; [done|]. by apply elem_of_nil in Hin.
  - apply Forall_cons in Hok as [Hitem Hok]. unfold usable_value in Hitem.
    simpl in Hitem |- *.
    destruct value as [s|[|first items]|]; try done; simpl.
    + destruct (IH (roots ∪ {[key]}) Hok) as (roots' & -> & Hmem).
      exists roots'. split; [done|]. intros r. rewrite Hmem.
      rewrite elem_of_union, elem_of_singleton. split.
      * intros [[?| ->]|(item & Hin & Hc)]; [by left|right..].
        -- exists (key, VStr s). split; [left|constructor].
        -- exists item. split; [by right|done].
      * intros [?|(item & Hin & Hc)]; [by left; left|].
        apply elem_of_cons in Hin as [->|Hin].
        -- inversion Hc; subst. by left; right.
        -- right. eauto.
    + destruct (IH (roots ∪ {[first]}) Hok) as (roots' & -> & Hmem).
      exists roots'. split; [done|]. intros r. rewrite Hmem.
      rewrite elem_of_union, elem_of_singleton. split.
      * intros [[?| ->]|(item & Hin & Hc)]; [by left|right..].
        -- exists (key, VSeq (first :: items)). split; [left|constructor].
        -- exists item. split; [by right|done].
      * intros [?|(item & Hin & Hc)]; [by left; left|].
        apply elem_of_cons in Hin as [->|Hin].
        -- inversion Hc; subst. by left; right.
        -- right. eauto.
Qed.

(** C3 (as amended). The roots are exactly what the entries of the mapping
    contribute: the key of an entry whose value is a string, and the first
    item of a value that is a sequence. *)
Theorem intersphinx_roots_members (app : application)
    (mappings : list (string * mapping_value)) :
  config_intersphinx_mapping app = Some mappings →
  Forall usable_value mappings →
  ∃ roots, _get_all_intersphinx_roots (Some app) = Return roots ∧
    (∀ r, r ∈ roots ↔ ∃ item, item ∈ mappings ∧ contributes item r) ∧
    (∀ key s, (key, VStr s) ∈ mappings → key ∈ roots) ∧
    (∀ key first rest, (key, VSeq (first :: rest)) ∈ mappings → first ∈ roots).
Proof.
  intros Hcfg Hok. unfold _get_all_intersphinx_roots. simpl. rewrite Hcfg.
  destruct (add_roots_members mappings ∅ Hok) as (roots & -> & Hmem).
  exists roots. split; [done|].
  assert (∀ r, r ∈ roots ↔ ∃ item, item ∈ mappings ∧ contributes item r) as H.
  { intros r. rewrite Hmem. split; [|by right]. intros [?|?]; [set_solver|done]. }
  split; [done|]. split.
  - intros key s Hin. apply H. eexists. split; [done|constructor].
  - intros key first rest Hin. apply H. eexists. split; [done|constructor].
Qed.

(** ** The root of a URL *)

Lemma get_project_url_root_first (uri : string) (before : list string)
    (root : string) (after : list string) :
  Forall (λ r, ¬ is_prefix r uri) before →
  is_prefix root uri →
  _get_project_url_root uri (before ++ root :: after) = root.
Proof.
  intros Hbefore Hroot. induction Hbefore as [|r before Hr _ IH]; simpl.
  - apply startswith_is_prefix in Hroot. by rewrite Hroot.
  - destruct (Py.startswith uri r) eqn:E; [|done].
    by apply startswith_is_prefix in E.
Qed.

Lemma get_project_url_root_none (uri : string) (roots : list string) :
  Forall (λ r, ¬ is_prefix r uri) roots →
  _get_project_url_root uri roots = EmptyString.
Proof.
  induction 1 as [|r roots Hr _ IH]; simpl; [done|].
  destruct (Py.startswith uri r) eqn:E; [|done].
  by apply startswith_is_prefix in E.
Qed.

(** ** Splitting the URI *)

Lemma str_split_length (c : ascii) (s : string) :
  length (Py.str_split c s) = S (Py.str_count c s).
Proof.
  induction s as [|a s IH]; simpl; [done|].
  case_decide; simpl; [by rewrite IH|].
  pose proof (str_split_not_nil c s).
  destruct (Py.str_split c s); [done|]. by simpl in *.
Qed.

Lemma str_split_items_free (c : ascii) (s : string) :
  Forall (λ x, Py.str_count c x = 0) (Py.str_split c s).
Proof.
  induction s as [|a s IH]; simpl; [by repeat constructor|].
  case_decide.
  - by constructor.
  - destruct (Py.str_split c s) as [|h t]; [by repeat constructor; simpl; case_decide|].
    apply Forall_cons in IH as [Hh Ht]. constructor; [|done].
    simpl. by rewrite decide_False.
Qed.

Lemma str_join_split (c : ascii) (s : string) :
  Py.str_join (String c EmptyString) (Py.str_split c s) = s.
Proof.
  induction s as [|a s IH]; simpl; [done|].
  pose proof (str_split_not_nil c s) as Hne. case_decide.
  - subst a. destruct (Py.str_split c s) as [|h t] eqn:E; [done|].
    change (Py.str_join (String c EmptyString) (EmptyString :: h :: t))
      with (String c (Py.str_join (String c EmptyString) (h :: t))).
    by rewrite IH.
  - destruct (Py.str_split c s) as [|h [|h' t]] eqn:E; [done|..].
    + simpl in *. by rewrite IH.
    + change (Py.str_join (String c EmptyString) (String a h :: h' :: t))
        with (String a (Py.str_join (String c EmptyString) (h :: h' :: t))).
      by rewrite IH.
Qed.

(** A string with one separator splits in two at that separator. *)
Lemma str_split_once (c : ascii) (s : string) :
  Py.str_count c s = 1 →
  ∃ base anchor,
    Py.str_split c s = [base; anchor] ∧
    s = base +:+ String c anchor ∧
    Py.str_count c base = 0 ∧ Py.str_count c anchor = 0.
Proof.
  intros Hcount. pose proof (str_split_length c s) as Hlen.
  pose proof (str_split_items_free c s) as Hfree.
  pose proof (str_join_split c s) as Hjoin. rewrite Hcount in Hlen.
  destruct (Py.str_split c s) as [|base [|anchor [|]]]; try done.
  exists base, anchor. apply Forall_cons in Hfree as [? Hfree].
  apply Forall_cons in Hfree as [? _]. by rewrite <-Hjoin.
Qed.

(** Outside the invariant the unpacking is a fault. *)
Lemma uri_split_fault (uri : string) :
  Py.str_count "#" uri ≠ 1 →
  Py.unpack2 (Py.str_split "#" uri) = Raise ValueError.
Proof.
  intros Hcount. pose proof (str_split_length "#" uri) as Hlen.
  destruct (Py.str_split "#" uri) as [|a [|b [|c l]]]; try done.
  simpl in Hlen. lia.
Qed.

Lemma str_split_two (c : ascii) (base anchor : string) :
  Py.str_count c base = 0 → Py.str_count c anchor = 0 →
  Py.str_split c (base +:+ String c anchor) = [base; anchor].
Proof.
  intros Hbase Hanchor. rewrite str_split_app by done.
  by rewrite str_split_free.
Qed.

(** ** Fetching and extracting *)

Lemma extract_raises (BeautifulSoup : string → list node)
    (contents tag : string) (e : exception) :
  extract BeautifulSoup contents tag = Raise e → e = AttributeError.
Proof. unfold extract. case_match; congruence. Qed.

(** C5. For an absolute path, [_get_source_code] raises [NotFoundFile]
    exactly when no regular file is at the path, and otherwise goes on
    with the whole contents of the file; for any other reference, it asks
    the network, and whatever the retrieval raises becomes
    [NotFoundUrl]. *)
Theorem get_source_code_fetch (w : world)
    (BeautifulSoup : string → list node) (uri tag : string) :
  (os_path.isabs uri = true →
     ((∃ e, _get_source_code w BeautifulSoup uri tag = Raise e ∧
            kind_of e = Some PageNotFoundLocal)
      ↔ os_path.isfile w uri = false) ∧
     (os_path.isfile w uri = false →
        _get_source_code w BeautifulSoup uri tag = Raise (NotFoundFile uri)) ∧
     (∀ contents, files w !! uri = Some (RegularFile contents) →
        fetch w uri = Return contents ∧
        _get_source_code w BeautifulSoup uri tag
        = extract BeautifulSoup contents tag)) ∧
  (os_path.isabs uri = false →
     (∀ err : url_error, urlopen_read w uri = inl err →
        _get_source_code w BeautifulSoup uri tag = Raise (NotFoundUrl uri) ∧
        kind_of (NotFoundUrl uri) = Some PageNotFoundRemote) ∧
     (∀ contents, urlopen_read w uri = inr contents →
        fetch w uri = Return contents ∧
        _get_source_code w BeautifulSoup uri tag
        = extract BeautifulSoup contents tag)).
Proof.
  unfold _get_source_code, fetch, os_path.isfile, open_read.
  split; intros ->.
  - split; [|split].
    + destruct (files w !! uri) as [[contents|]|] eqn:Hfile; simpl.
      * split; [|done]. intros (e & He & Hkind).
        apply extract_raises in He as ->. done.
      * split; [done|]. by exists (NotFoundFile uri).
      * split; [done|]. by exists (NotFoundFile uri).
    + by destruct (files w !! uri) as [[contents|]|].
    + by intros contents ->.
  - split.
    + by intros err ->.
    + by intros contents ->.
Qed.

Section pipeline_properties.

Variable APPLICATION : option application.
Variable iter : gset string → list string.
Hypothesis iter_elements : ∀ X, iter X ≡ₚ elements X.
Variable w : world.
Variable BeautifulSoup : string → list node.

(** C4. The root of a URL is the first member of the set, in the order of
    the iteration, that is a prefix of it, which need not be the longest
    one; when no member is a prefix, [get_source_code] raises the
    [EnvironmentError] that lists the members of the set in increasing
    order. *)
Theorem root_resolution :
  (∀ (url : string) (roots : gset string)
     (before : list string) (root : string) (after : list string),
     iter roots = before ++ root :: after →
     Forall (λ r, ¬ is_prefix r url) before →
     is_prefix root url →
     _get_project_url_root url (iter roots) = root) ∧
  _get_project_url_root "/docs/api/x.html" ["/docs"; "/docs/api"] = "/docs" ∧
  (∀ (directive namespace url anchor : string) (roots : gset string),
     lookup APPLICATION iter directive namespace
     = Return (url +:+ "#" +:+ anchor) →
     Py.str_count "#" url = 0 → Py.str_count "#" anchor = 0 →
     _get_all_intersphinx_roots APPLICATION = Return roots →
     (∀ r, r ∈ roots → ¬ is_prefix r url) →
     ∃ payload,
       get_source_code APPLICATION iter w BeautifulSoup directive namespace
       = Raise (EnvironmentError (UrlNotInProjects url payload)) ∧
       kind_of (EnvironmentError (UrlNotInProjects url payload))
       = Some RootNotFound ∧
       Sorted String.le payload ∧ NoDup payload ∧
       ∀ r, r ∈ payload ↔ r ∈ roots).
Proof using iter_elements.
  split; [|split; [reflexivity|]].
  - intros url roots before root after -> Hbefore Hroot.
    by apply get_project_url_root_first.
  - intros directive namespace url anchor roots Hlookup Hurl Hanchor Hroots Hnone.
    unfold get_source_code, locate_and_fetch. rewrite Hlookup. simpl.
    change ("#" +:+ anchor) with (String "#" anchor).
    rewrite str_split_two by done. simpl. rewrite Hroots. simpl.
    rewrite get_project_url_root_none.
    + rewrite decide_True by done. eexists. split; [done|]. split; [done|].
      split; [apply sorted_Sorted|]. split.
      * rewrite sorted_Permutation, iter_elements. apply NoDup_elements.
      * intros r. by rewrite sorted_Permutation, iter_elements, elem_of_elements.
    + apply Forall_forall. intros r Hr. apply Hnone.
      by rewrite iter_elements, elem_of_elements in Hr.
Qed.

(** C8. A URI with exactly one [#] is unpacked without a fault into the
    text before the [#], which goes to the root resolution, and the text
    after it, which goes to [_get_module_tag]. *)
Theorem uri_split (directive uri : string) :
  Py.str_count "#" uri = 1 →
  ∃ url anchor,
    Py.unpack2 (Py.str_split "#" uri) = Return (url, anchor) ∧
    uri = url +:+ "#" +:+ anchor ∧
    Py.str_count "#" url = 0 ∧
    locate_and_fetch APPLICATION iter w BeautifulSoup directive uri
    = (available_roots ← _get_all_intersphinx_roots APPLICATION;
       let root := _get_project_url_root url (iter available_roots) in
       if decide (root = EmptyString) then
         Raise (EnvironmentError
                  (UrlNotInProjects url (Py.sorted (iter available_roots))))
       else
         '(module_path, tag) ← _get_module_tag anchor directive;
         _get_source_code w BeautifulSoup (root +:+ "/" +:+ module_path) tag).
Proof.
  intros Hcount.
  destruct (str_split_once "#" uri Hcount) as (url & anchor & Hs & -> & Hurl & _).
  exists url, anchor. unfold locate_and_fetch. rewrite Hs. done.
Qed.

End pipeline_properties.

(** ** The tree of the document *)

Lemma node_ind' (P : node → Prop) :
  (∀ s, P (NavigableString s)) →
  (∀ u nm attrs cs, Forall P cs → P (Tag u nm attrs cs)) →
  ∀ n, P n.
Proof.
  intros Htext Htag. fix IH 1. intros [s|u nm attrs cs]; [apply Htext|].
  apply Htag. induction cs as [|c cs IHcs]; constructor; [apply IH|apply IHcs].
Qed.

Lemma matches_same_label (name key against : string) (n m : node) :
  same_label n m →
  bs4.matches name key against n = bs4.matches name key against m.
Proof.
  destruct n, m; simpl; try done. by intros (_ & -> & ->).
Qed.

Lemma same_label_uid (n m : node) : same_label n m → uid_of n = uid_of m.
Proof. destruct n, m; simpl; try done. by intros (-> & _). Qed.

Lemma self_in_descendants (n : node) : n ∈ bs4.self_and_descendants n.
Proof. destruct n; simpl; left. Qed.

Lemma prune_ext (P Q : nat → bool) (n : node) :
  (∀ u, P u = Q u) → prune P n = prune Q n.
Proof.
  intros HPQ. induction n as [s|u nm attrs cs IH] using node_ind'; simpl; [done|].
  rewrite HPQ. destruct (Q u); [done|]. do 2 f_equal.
  by apply Forall_bind_ext.
Qed.

Lemma prune_none (n : node) : prune (λ _, false) n = [n].
Proof.
  induction n as [s|u nm attrs cs IH] using node_ind'; simpl; [done|].
  do 2 f_equal. induction IH as [|c cs Hc _ IHcs]; [done|].
  by rewrite bind_cons, Hc, IHcs.
Qed.

Lemma prune_prune (P Q : nat → bool) (n : node) :
  prune P n ≫= prune Q = prune (λ u, P u || Q u) n.
Proof.
  induction n as [s|u nm attrs cs IH] using node_ind'; simpl; [done|].
  destruct (P u); simpl; [done|]. destruct (Q u); simpl; [done|].
  do 2 f_equal. induction IH as [|c cs Hc _ IHcs]; [done|].
  by rewrite !bind_cons, bind_app, Hc, IHcs.
Qed.

Lemma bind_prune_prune (P Q : nat → bool) (soup : list node) :
  (soup ≫= prune P) ≫= prune Q = soup ≫= prune (λ u, P u || Q u).
Proof.
  induction soup as [|n soup IH]; [done|].
  by rewrite !bind_cons, bind_app, prune_prune, IH.
Qed.

Lemma without_prune (u : nat) (n : node) :
  bs4.without u n = prune (λ v, bool_decide (v = u)) n.
Proof.
  induction n as [s|v nm attrs cs IH] using node_ind'; simpl; [done|].
  case_decide; [by rewrite bool_decide_eq_true_2|].
  rewrite bool_decide_eq_false_2 by done. do 2 f_equal.
  by apply Forall_bind_ext.
Qed.

(** The loop of decompositions removes the elements that have the
    identity of one of the nodes found. *)
Lemma decompose_all_prune (found soup : list node) :
  decompose_all found soup
  = soup ≫= prune (λ u, bool_decide (u ∈ omap uid_of found)).
Proof.
  unfold decompose_all.
  assert (∀ P, foldl (λ soup div, bs4.decompose div soup) (soup ≫= prune P) found
               = soup ≫= prune (λ u, P u || bool_decide (u ∈ omap uid_of found)))
    as Hgen.
  { induction found as [|div found IH]; intros P; simpl.
    - apply Forall_bind_ext, Forall_forall. intros n _. apply prune_ext.
      intros u. by rewrite orb_false_r.
    - destruct div as [s|v nm attrs cs]; simpl; [apply IH|].
      rewrite (Forall_bind_ext (bs4.without v) (prune (λ u, bool_decide (u = v))))
        by (apply Forall_forall; intros; apply without_prune).
      rewrite bind_prune_prune, IH.
      apply Forall_bind_ext, Forall_forall. intros n _. apply prune_ext.
      intros u. rewrite <-orb_assoc. f_equal.
      apply eq_true_iff_eq. rewrite orb_true_iff, !bool_decide_eq_true.
      by rewrite elem_of_cons. }
  specialize (Hgen (λ _, false)). simpl in Hgen. rewrite <-Hgen. f_equal.
  symmetry. clear Hgen. induction soup as [|n soup IH]; [done|].
  by rewrite bind_cons, prune_none, IH.
Qed.

(** Pruning adds no node: what is in the pruned document has the label
    of a node of the document. *)
Lemma descendants_prune (P : nat → bool) (soup : list node) (m : node) :
  m ∈ bs4.descendants (soup ≫= prune P) →
  ∃ m', m' ∈ bs4.descendants soup ∧ same_label m m'.
Proof.
  unfold bs4.descendants. revert m.
  assert (∀ n m, m ∈ prune P n ≫= bs4.self_and_descendants →
                 ∃ m', m' ∈ bs4.self_and_descendants n ∧ same_label m m') as Hnode.
  { induction n as [s|u nm attrs cs IH] using node_ind'; intros m;
      cbn [prune].
    - rewrite bind_singleton. simpl. intros ->%list_elem_of_singleton.
      exists (NavigableString s). split; [left|done].
    - destruct (P u); [by intros ?%elem_of_nil|]. rewrite bind_singleton.
      cbn [bs4.self_and_descendants].
      intros [->|Hm]%elem_of_cons.
      + eexists. split; [left|]. done.
      + apply list_elem_of_bind in Hm as (k & Hm & Hk).
        apply list_elem_of_bind in Hk as (c & Hk & Hc).
        rewrite Forall_forall in IH.
        destruct (IH c Hc m) as (m' & Hm' & Hlabel).
        { apply list_elem_of_bind. eauto. }
        exists m'. split; [|done]. right. apply list_elem_of_bind. eauto. }
  intros m Hm. apply list_elem_of_bind in Hm as (k & Hm & Hk).
  apply list_elem_of_bind in Hk as (n & Hk & Hn).
  destruct (Hnode n m) as (m' & Hm' & Hlabel).
  { apply list_elem_of_bind. eauto. }
  exists m'. split; [|done]. apply list_elem_of_bind. eauto.
Qed.

Lemma prune_strip_node (P : nat → bool) (n : node) :
  (∀ m u, m ∈ bs4.self_and_descendants n → uid_of m = Some u →
          P u = is_backlink m) →
  prune P n = strip_backlinks_node n.
Proof.
  induction n as [s|u nm attrs cs IH] using node_ind'; intros Hagree;
    [done|].
  cbn [prune strip_backlinks_node].
  rewrite (Hagree (Tag u nm attrs cs) u) by (done || apply self_in_descendants).
  destruct (is_backlink (Tag u nm attrs cs)); [done|]. do 2 f_equal.
  apply Forall_bind_ext. rewrite Forall_forall in IH |- *.
  intros c Hc. apply IH; [done|]. intros m v Hm Hv. apply Hagree; [|done].
  cbn [bs4.self_and_descendants]. right. apply list_elem_of_bind. eauto.
Qed.

(** Two nodes of a list with the same identity are one node, when the
    identities in the list are distinct. *)
Lemma uid_unique (l : list node) (x y : node) (u : nat) :
  NoDup (omap uid_of l) → x ∈ l → y ∈ l →
  uid_of x = Some u → uid_of y = Some u → x = y.
Proof.
  induction l as [|a l IH]; [by intros _ ?%elem_of_nil|].
  intros Hnodup Hx Hy Hux Huy. simpl in Hnodup.
  assert (∀ z, z ∈ l → uid_of z = Some u → u ∈ omap uid_of l) as Hin.
  { intros z ? ?. apply list_elem_of_omap. eauto. }
  apply elem_of_cons in Hx as [->|Hx], Hy as [->|Hy]; [done|..].
  - rewrite Hux in Hnodup. apply NoDup_cons in Hnodup as [Hnot _].
    destruct Hnot. eauto.
  - rewrite Huy in Hnodup. apply NoDup_cons in Hnodup as [Hnot _].
    destruct Hnot. eauto.
  - apply IH; try done. destruct (uid_of a); [|done].
    by apply NoDup_cons in Hnodup as [_ ?].
Qed.

(** On a document whose elements have distinct identities, the loop of
    [_get_source_code] removes the back-links and nothing else. *)
Lemma decompose_all_strip (soup : list node) :
  NoDup (identities soup) →
  decompose_all (bs4.find_all soup "a" "class" "viewcode-back") soup
  = strip_backlinks soup.
Proof.
  intros Hnodup. rewrite decompose_all_prune. unfold strip_backlinks.
  apply Forall_bind_ext, Forall_forall. intros n Hn.
  apply prune_strip_node. intros m u Hm Hu.
  assert (m ∈ bs4.descendants soup) as Hm'.
  { apply list_elem_of_bind. eauto. }
  apply eq_true_iff_eq. rewrite bool_decide_eq_true, list_elem_of_omap.
  unfold bs4.find_all. split.
  - intros (m0 & Hm0 & Hu0). apply list_elem_of_filter in Hm0 as [Hback Hm0].
    by rewrite (uid_unique _ m m0 u Hnodup).
  - intros Hback. exists m. split; [|done]. by apply list_elem_of_filter.
Qed.

Lemma strip_backlinks_clean (soup : list node) (m : node) :
  m ∈ bs4.descendants (strip_backlinks soup) → is_backlink m = false.
Proof.
  unfold bs4.descendants, strip_backlinks. revert m.
  assert (∀ n m, m ∈ strip_backlinks_node n ≫= bs4.self_and_descendants →
                 is_backlink m = false) as Hnode.
  { induction n as [s|u nm attrs cs IH] using node_ind'; intros m;
      cbn [strip_backlinks_node].
    - rewrite bind_singleton. simpl. by intros ->%list_elem_of_singleton.
    - destruct (is_backlink (Tag u nm attrs cs)) eqn:Hback;
        [by intros ?%elem_of_nil|].
      rewrite bind_singleton. cbn [bs4.self_and_descendants].
      intros [->|Hm]%elem_of_cons.
      + by rewrite <-Hback.
      + apply list_elem_of_bind in Hm as (k & Hm & Hk).
        apply list_elem_of_bind in Hk as (c & Hk & Hc).
        rewrite Forall_forall in IH. apply (IH c Hc).
        apply list_elem_of_bind. eauto. }
  intros m Hm. apply list_elem_of_bind in Hm as (k & Hm & Hk).
  apply list_elem_of_bind in Hk as (n & Hk & Hn).
  apply (Hnode n). apply list_elem_of_bind. eauto.
Qed.

(** [find] returns the first node, in document order, that matches. *)
Lemma find_first (soup : list node) (name key against : string)
    (before : list node) (n : node) (after : list node) :
  bs4.descendants soup = before ++ n :: after →
  Forall (λ m, bs4.matches name key against m = false) before →
  bs4.matches name key against n = true →
  bs4.find soup name key against = Some n.
Proof.
  intros Hsplit Hbefore Hn. unfold bs4.find, bs4.find_all. rewrite Hsplit.
  rewrite filter_app, filter_cons_True by done.
  replace (filter _ before) with (@nil node); [done|].
  symmetry. clear Hsplit. induction Hbefore as [|m before Hm _ IH]; [done|].
  rewrite filter_cons_False; [apply IH|]. by rewrite Hm.
Qed.

Lemma find_none (soup : list node) (name key against : string) :
  (∀ m, m ∈ bs4.descendants soup → bs4.matches name key against m = false) →
  bs4.find soup name key against = None.
Proof.
  intros Hnone. unfold bs4.find, bs4.find_all. apply head_None.
  destruct (filter _ _) as [|m l] eqn:E; [done|].
  assert (m ∈ filter (λ n, bs4.matches name key against n = true)
                     (bs4.descendants soup)) as Hm by (rewrite E; left).
  apply list_elem_of_filter in Hm as [Hm Hin]. by rewrite Hnone in Hm.
Qed.

(** C6 (as amended). Once the page is fetched, the back-links are taken
    out of the document, and the text returned is that of the first [div]
    element of what remains whose [id] is the tag; no back-link is left
    in what remains.  On the page of the example the text is [code]. *)
Theorem get_source_code_extract (w : world)
    (BeautifulSoup : string → list node) (uri tag contents : string) :
  fetch w uri = Return contents →
  NoDup (identities (BeautifulSoup contents)) →
  (∀ m, m ∈ bs4.descendants (strip_backlinks (BeautifulSoup contents)) →
        is_backlink m = false) ∧
  (∀ (before : list node) (n : node) (after : list node),
     bs4.descendants (strip_backlinks (BeautifulSoup contents))
     = before ++ n :: after →
     Forall (λ m, bs4.matches "div" "id" tag m = false) before →
     bs4.matches "div" "id" tag n = true →
     _get_source_code w BeautifulSoup uri tag = Return (bs4.getText n)) ∧
  _get_source_code example_world HtmlLite.parse
    "/docs/_modules/pkg/mod.html" "Cls.meth"
  = Return "code".
Proof.
  intros Hfetch Hnodup. split; [apply strip_backlinks_clean|].
  split; [|by vm_compute].
  intros before n after Hsplit Hbefore Hn.
  unfold _get_source_code, extract. rewrite Hfetch. simpl.
  rewrite decompose_all_strip by done.
  by rewrite (find_first _ _ _ _ before n after).
Qed.

(** C10. When no [div] element of the fetched page has the tag for [id],
    [_get_source_code] raises [AttributeError], which is none of the
    kinds of failure of the design. *)
Theorem get_source_code_no_div (w : world)
    (BeautifulSoup : string → list node) (uri tag contents : string) :
  fetch w uri = Return contents →
  (∀ m, m ∈ bs4.descendants (BeautifulSoup contents) →
        bs4.matches "div" "id" tag m = false) →
  _get_source_code w BeautifulSoup uri tag = Raise AttributeError ∧
  kind_of AttributeError = None.
Proof.
  intros Hfetch Hnone. split; [|done].
  unfold _get_source_code, extract. rewrite Hfetch. simpl.
  rewrite decompose_all_prune, find_none; [done|].
  intros m Hm. apply descendants_prune in Hm as (m' & Hm' & Hlabel).
  rewrite (matches_same_label _ _ _ m m') by done. by apply Hnone.
Qed.

(** ** The properties at work on the examples *)

Example get_source_code_example :
  get_source_code (Some example_app) elements example_world HtmlLite.parse
    "py:method" "pkg.mod.Cls.meth"
  = Return "code".
Proof. vm_compute. reflexivity. Qed.

Lemma example_inventory_not_empty : example_inventory ≠ ∅.
Proof. apply (bool_decide_unpack _). vm_compute. exact I. Defined.

Lemma not_prefix_old : ¬ is_prefix "/old/" "/docs/api/pkg.html".
Proof. intros H. apply startswith_is_prefix in H. discriminate H. Defined.

Lemma not_prefix_elsewhere (r : string) :
  r ∈ ({[ "/docs"; "/old/" ]} : gset string) →
  ¬ is_prefix r "/elsewhere/api.html".
Proof.
  intros Hr H. apply startswith_is_prefix in H.
  apply elem_of_union in Hr as [Hr|Hr]; apply elem_of_singleton in Hr;
    subst r; discriminate H.
Defined.

Lemma lookup_in_inventory_witness :
  example_inventory ≠ ∅ ∧
  lookup (Some example_app) elements "py:method" "pkg.mod.Cls.meth"
  = Return "/docs/api/pkg.html#pkg.mod.Cls.meth".
Proof.
  split; [exact example_inventory_not_empty|].
  exact (lookup_in_inventory elements (λ X, Permutation_refl (elements X))
           example_app example_inventory "py:method" "pkg.mod.Cls.meth"
           eq_refl example_inventory_not_empty).
Defined.

(** The claim C1 read on every inventory fails on the empty one: the
    directive is absent, and the error is not [MissingDirective]. *)
Lemma lookup_empty_inventory :
  builder_env_intersphinx_inventory empty_app = Some ∅ ∧
  (∅ : inventory) !! "py:method" = None ∧
  lookup (Some empty_app) elements "py:method" "pkg.mod.f"
  = Raise RuntimeError ∧
  kind_of RuntimeError ≠ Some UnknownRole ∧
  kind_of RuntimeError ≠ Some UnknownSymbol.
Proof. repeat split; discriminate. Qed.

Lemma get_source_code_unavailable_witness :
  inventory_unavailable None ∧
  ∃ e, kind_of e = Some ConfigurationError ∧
    get_source_code None elements example_world HtmlLite.parse
      "py:method" "pkg.mod.Cls.meth" = Raise e.
Proof.
  split; [exact I|].
  destruct (get_source_code_unavailable elements None I) as (e & Hkind & He).
  exists e. split; [exact Hkind|].
  exact (proj2 (He example_world HtmlLite.parse "py:method" "pkg.mod.Cls.meth")).
Defined.

Lemma intersphinx_roots_members_witness :
  ∃ roots, _get_all_intersphinx_roots (Some example_app) = Return roots ∧
    "/old/" ∈ roots ∧ "/docs" ∈ roots.
Proof.
  destruct (intersphinx_roots_members example_app
              [("python", VSeq ["/docs"; "objects.inv"]); ("/old/", VStr "old.inv")]
              eq_refl) as (roots & Hroots & _ & Hstr & Hseq).
  - repeat constructor. discriminate.
  - exists roots. split; [exact Hroots|]. split.
    + apply (Hstr "/old/" "old.inv"). right. left.
    + apply (Hseq "python" "/docs" ["objects.inv"]). left.
Defined.

(** The claim C3 fails on a value that is a string: the root is the key,
    and the string is no root. *)
Lemma string_value_is_no_root :
  config_intersphinx_mapping old_app = Some [("/old/", VStr "old.inv")] ∧
  _get_all_intersphinx_roots (Some old_app) = Return {[ "/old/" ]} ∧
  "old.inv" ∉ ({[ "/old/" ]} : gset string).
Proof.
  split; [reflexivity|]. split; [vm_compute; reflexivity|].
  apply (bool_decide_unpack _). vm_compute. exact I.
Qed.

Lemma root_resolution_witness :
  _get_project_url_root "/docs/api/pkg.html"
    (elements ({[ "/docs"; "/old/" ]} : gset string)) = "/docs" ∧
  ∃ payload,
    get_source_code (Some example_app) elements example_world HtmlLite.parse
      "py:function" "pkg.mod.func"
    = Raise (EnvironmentError (UrlNotInProjects "/elsewhere/api.html" payload)).
Proof.
  pose proof (root_resolution (Some example_app) elements
                (λ X, Permutation_refl (elements X))
                example_world HtmlLite.parse) as (Hfirst & _ & Hnone).
  split.
  - apply (Hfirst "/docs/api/pkg.html" {[ "/docs"; "/old/" ]}
             ["/old/"] "/docs" []).
    + vm_compute. reflexivity.
    + constructor; [exact not_prefix_old|constructor].
    + exists "/api/pkg.html". reflexivity.
  - destruct (Hnone "py:function" "pkg.mod.func" "/elsewhere/api.html"
                "pkg.mod.func" {[ "/docs"; "/old/" ]}) as (payload & H & _).
    + vm_compute. reflexivity.
    + reflexivity.
    + reflexivity.
    + vm_compute. reflexivity.
    + exact not_prefix_elsewhere.
    + exists payload. exact H.
Defined.

Lemma uri_split_witness :
  Py.str_count "#" "/docs/api/pkg.html#pkg.mod.Cls.meth" = 1 ∧
  ∃ url anchor,
    Py.unpack2 (Py.str_split "#" "/docs/api/pkg.html#pkg.mod.Cls.meth")
    = Return (url, anchor) ∧
    "/docs/api/pkg.html#pkg.mod.Cls.meth" = url +:+ "#" +:+ anchor.
Proof.
  split; [reflexivity|].
  destruct (uri_split (Some example_app) elements example_world HtmlLite.parse
              "py:method" "/docs/api/pkg.html#pkg.mod.Cls.meth" eq_refl)
    as (url & anchor & Hsplit & Huri & _).
  exists url, anchor. split; [exact Hsplit|exact Huri].
Defined.

Lemma get_source_code_fetch_witness :
  (os_path.isabs "/docs/_modules/pkg/mod.html" = true ∧
   fetch example_world "/docs/_modules/pkg/mod.html" = Return example_page) ∧
  (os_path.isabs "https://example.org/mod.html" = false ∧
   _get_source_code example_world HtmlLite.parse
     "https://example.org/mod.html" "Cls.meth"
   = Raise (NotFoundUrl "https://example.org/mod.html")).
Proof.
  split; (split; [reflexivity|]).
  - destruct (proj1 (get_source_code_fetch example_world HtmlLite.parse
                       "/docs/_modules/pkg/mod.html" "Cls.meth") eq_refl)
      as (_ & _ & Hread).
    apply (Hread example_page). vm_compute. reflexivity.
  - destruct (proj2 (get_source_code_fetch example_world HtmlLite.parse
                       "https://example.org/mod.html" "Cls.meth") eq_refl)
      as (Herr & _).
    exact (proj1 (Herr ConnectionFailure eq_refl)).
Defined.

Lemma get_source_code_extract_witness :
  fetch example_world "/docs/_modules/pkg/mod.html" = Return example_page ∧
  NoDup (identities (HtmlLite.parse example_page)) ∧
  _get_source_code example_world HtmlLite.parse
    "/docs/_modules/pkg/mod.html" "Cls.meth"
  = Return (bs4.getText
              (Tag 0 "div" {[ "id" := AttrStr "Cls.meth" ]}
                 [NavigableString "code"])).
Proof.
  assert (fetch example_world "/docs/_modules/pkg/mod.html"
          = Return example_page) as Hfetch by (vm_compute; reflexivity).
  assert (NoDup (identities (HtmlLite.parse example_page))) as Hnodup
    by (apply (bool_decide_unpack _); vm_compute; exact I).
  split; [exact Hfetch|]. split; [exact Hnodup|].
  apply (proj1 (proj2 (get_source_code_extract example_world HtmlLite.parse
                         "/docs/_modules/pkg/mod.html" "Cls.meth" example_page
                         Hfetch Hnodup))
           [] _ [NavigableString "code"]).
  - vm_compute. reflexivity.
  - constructor.
  - vm_compute. reflexivity.
Defined.

(** The claim C6 fails when the element that carries the identifier is
    not a [div]: its text is not returned. *)
Lemma span_is_not_extracted :
  HtmlLite.parse span_page
  = [Tag 0 "span" {[ "id" := AttrStr "Cls.meth" ]} [NavigableString "code"]] ∧
  _get_source_code (one_file "/docs/_modules/pkg/mod.html" span_page)
    HtmlLite.parse "/docs/_modules/pkg/mod.html" "Cls.meth"
  = Raise AttributeError.
Proof. split; vm_compute; reflexivity. Qed.

Lemma get_source_code_no_div_witness :
  fetch (one_file "/docs/_modules/pkg/mod.html" span_page)
    "/docs/_modules/pkg/mod.html" = Return span_page ∧
  _get_source_code (one_file "/docs/_modules/pkg/mod.html" span_page)
    HtmlLite.parse "/docs/_modules/pkg/mod.html" "Cls.meth"
  = Raise AttributeError.
Proof.
  assert (fetch (one_file "/docs/_modules/pkg/mod.html" span_page)
            "/docs/_modules/pkg/mod.html" = Return span_page) as Hfetch
    by (vm_compute; reflexivity).
  split; [exact Hfetch|].
  apply (get_source_code_no_div _ HtmlLite.parse _ "Cls.meth" span_page Hfetch).
  apply Forall_forall. vm_compute. repeat constructor.
Defined.

(** * Further properties of the module *)

(** ** [_get_module_tag] on any namespace *)

Lemma drop_last_one {A} (l : list A) (x : A) :
  last l = Some x → drop (length l - 1) l = [x].
Proof.
  intros (l' & ->)%last_Some. rewrite length_app. simpl.
  replace (length l' + 1 - 1) with (length l') by lia.
  by rewrite drop_app_length.
Qed.

(** X1. Whatever the namespace, the tokens of the page path followed by
    those of the anchor are the tokens of the namespace: joined by dots
    they give the namespace back.  The anchor takes two tokens under the
    method directive (all of them when there are fewer) and one token
    otherwise. *)
Theorem get_module_tag_rejoin (namespace directive : string) :
  ∃ front back : list string,
    _get_module_tag namespace directive
    = Return (format_modules_html (Py.str_join "/" front),
              Py.str_join "." back) ∧
    Py.str_join "." (front ++ back) = namespace ∧
    Forall (λ x, Py.str_count "." x = 0) (front ++ back) ∧
    length back = if decide (directive = "py:method")
                  then 2 `min` length (front ++ back) else 1.
Proof.
  unfold _get_module_tag, Py.slice_to_neg, Py.slice_from_neg.
  set (tokens := Py.str_split "." namespace).
  assert (Py.str_join "." tokens = namespace) as Hjoin
    by apply (str_join_split ".").
  assert (Forall (λ x, Py.str_count "." x = 0) tokens) as Hfree
    by apply str_split_items_free.
  case_decide.
  - exists (take (length tokens - 2) tokens), (drop (length tokens - 2) tokens).
    rewrite take_drop. repeat split; try done.
    rewrite length_drop. lia.
  - destruct (index_last_is_Return tokens) as [x Hx];
      [apply str_split_not_nil|].
    rewrite Hx. simpl. unfold Py.index_last in Hx.
    destruct (last tokens) as [y|] eqn:Hlast; [|done]. simplify_eq.
    exists (take (length tokens - 1) tokens), [x].
    rewrite <-(drop_last_one tokens x Hlast), take_drop.
    rewrite (drop_last_one tokens x Hlast). done.
Qed.

(** ** The faults of [_get_all_intersphinx_roots] *)

Lemma add_roots_usable (good rest : list (string * mapping_value))
    (roots : gset string) :
  Forall usable_value good →
  ∃ roots', add_roots roots (good ++ rest) = add_roots roots' rest.
Proof.
  revert roots. induction good as [|[key value] good IH]; intros roots Hgood.
  - by exists roots.
  - apply Forall_cons in Hgood as [Hitem Hgood]. unfold usable_value in Hitem.
    simpl in Hitem |- *.
    destruct value as [s|[|first items]|]; try done; simpl; by apply IH.
Qed.

Lemma add_roots_Return_usable (mappings : list (string * mapping_value))
    (roots roots' : gset string) :
  add_roots roots mappings = Return roots' → Forall usable_value mappings.
Proof.
  revert roots. induction mappings as [|[key value] rest IH]; intros roots;
    [by constructor|].
  simpl. destruct value as [s|[|first items]|]; try done; simpl;
    intros Hrest; constructor; try (by eapply IH); done.
Qed.

(** X2. [_get_all_intersphinx_roots] returns a set exactly when the
    mapping can be read and each of its values is a string or a sequence
    with a first item.  Otherwise the fault is that of the first value
    that is neither: [TypeError] for [None], [IndexError] for an empty
    sequence; and it is [EnvironmentError] when there is no application
    or no mapping. *)
Theorem intersphinx_roots_faults :
  (∀ app : application,
     (∃ roots, _get_all_intersphinx_roots (Some app) = Return roots) ↔
     ∃ mappings, config_intersphinx_mapping app = Some mappings ∧
                 Forall usable_value mappings) ∧
  (∀ (app : application) good key rest,
     config_intersphinx_mapping app = Some (good ++ (key, VNone) :: rest) →
     Forall usable_value good →
     _get_all_intersphinx_roots (Some app) = Raise TypeError) ∧
  (∀ (app : application) good key rest,
     config_intersphinx_mapping app = Some (good ++ (key, VSeq []) :: rest) →
     Forall usable_value good →
     _get_all_intersphinx_roots (Some app) = Raise IndexError) ∧
  _get_all_intersphinx_roots None
  = Raise (EnvironmentError NotConfiguredProperly) ∧
  (∀ app : application,
     config_intersphinx_mapping app = None →
     _get_all_intersphinx_roots (Some app)
     = Raise (EnvironmentError NotConfiguredProperly)).
Proof.
  unfold _get_all_intersphinx_roots. repeat split; simpl.
  - intros [roots Hroots].
    destruct (config_intersphinx_mapping app) as [mappings|]; [|done].
    exists mappings. split; [done|]. by eapply add_roots_Return_usable.
  - intros (mappings & -> & Hok).
    destruct (add_roots_members mappings ∅ Hok) as (roots & -> & _). eauto.
  - intros app good key rest -> Hgood.
    by destruct (add_roots_usable good ((key, VNone) :: rest) ∅ Hgood) as [? ->].
  - intros app good key rest -> Hgood.
    by destruct (add_roots_usable good ((key, VSeq []) :: rest) ∅ Hgood) as [? ->].
  - by intros app ->.
Qed.

Lemma intersphinx_roots_faults_witness :
  _get_all_intersphinx_roots (Some none_app) = Raise TypeError.
Proof.
  apply (proj1 (proj2 intersphinx_roots_faults) none_app
           [("python", VSeq ["/docs"; "objects.inv"])] "/old/" []).
  - reflexivity.
  - repeat constructor. discriminate.
Defined.

(** X3. The set of roots does not depend on the order in which the
    mapping yields its items, nor on how often an item comes. *)
Theorem intersphinx_roots_order (app app' : application)
    (mappings mappings' : list (string * mapping_value)) :
  config_intersphinx_mapping app = Some mappings →
  config_intersphinx_mapping app' = Some mappings' →
  (∀ item, item ∈ mappings ↔ item ∈ mappings') →
  Forall usable_value mappings →
  _get_all_intersphinx_roots (Some app)
  = _get_all_intersphinx_roots (Some app').
Proof.
  intros Hcfg Hcfg' Hsame Hok. unfold _get_all_intersphinx_roots. simpl.
  rewrite Hcfg, Hcfg'.
  assert (Forall usable_value mappings') as Hok'.
  { rewrite Forall_forall in Hok |- *. intros item Hitem.
    by apply Hok, Hsame. }
  destruct (add_roots_members mappings ∅ Hok) as (roots & -> & Hmem).
  destruct (add_roots_members mappings' ∅ Hok') as (roots' & -> & Hmem').
  f_equal. apply set_eq. intros r. rewrite Hmem, Hmem'.
  by setoid_rewrite Hsame.
Qed.

Lemma intersphinx_roots_order_witness :
  _get_all_intersphinx_roots (Some example_app)
  = _get_all_intersphinx_roots
      (Some {| config_intersphinx_mapping :=
                 Some [("/old/", VStr "old.inv");
                       ("python", VSeq ["/docs"; "objects.inv"]);
                       ("/old/", VStr "old.inv")];
               builder_env_intersphinx_inventory := None |}).
Proof.
  apply (intersphinx_roots_order example_app _
           [("python", VSeq ["/docs"; "objects.inv"]); ("/old/", VStr "old.inv")]
           [("/old/", VStr "old.inv");
            ("python", VSeq ["/docs"; "objects.inv"]);
            ("/old/", VStr "old.inv")]).
  - reflexivity.
  - reflexivity.
  - intros item. rewrite !elem_of_cons, !elem_of_nil. tauto.
  - repeat constructor. discriminate.
Defined.

(** ** What [_get_project_url_root] returns *)

(** X4. The root returned is a member of the sequence that is a prefix of
    the URL and that no prefix comes before, or it is the empty string
    because no member is a prefix. *)
Theorem get_project_url_root_result (uri : string) (roots : list string) :
  (∃ before after,
     roots = before ++ _get_project_url_root uri roots :: after ∧
     Forall (λ r, ¬ is_prefix r uri) before ∧
     is_prefix (_get_project_url_root uri roots) uri) ∨
  (_get_project_url_root uri roots = EmptyString ∧
   Forall (λ r, ¬ is_prefix r uri) roots).
Proof.
  induction roots as [|root roots IH]; simpl; [right; by split|].
  destruct (Py.startswith uri root) eqn:E.
  - left. exists [], roots. split; [done|]. split; [constructor|].
    by apply startswith_is_prefix.
  - assert (¬ is_prefix root uri) as Hroot.
    { intros H%startswith_is_prefix. congruence. }
    destruct IH as [(before & after & Hsplit & Hbefore & Hprefix)|[Hnone Hall]].
    + left. exists (root :: before), after. split; [simpl; by f_equal|].
      split; [by constructor|done].
    + right. split; [done|]. by constructor.
Qed.

(** X5. When two roots are prefixes of the URL, the one that comes first
    is returned: the root found depends on the order of the iteration. *)
Theorem get_project_url_root_order (uri r1 r2 : string) :
  is_prefix r1 uri → is_prefix r2 uri →
  _get_project_url_root uri [r1; r2] = r1 ∧
  _get_project_url_root uri [r2; r1] = r2.
Proof.
  intros H1%startswith_is_prefix H2%startswith_is_prefix. simpl.
  by rewrite H1, H2.
Qed.

Lemma get_project_url_root_order_witness :
  _get_project_url_root "/docs/api/x.html" ["/docs"; "/docs/api"] = "/docs" ∧
  _get_project_url_root "/docs/api/x.html" ["/docs/api"; "/docs"] = "/docs/api".
Proof.
  apply get_project_url_root_order.
  - exists "/api/x.html". reflexivity.
  - exists "/x.html". reflexivity.
Defined.

(** ** The failures of [_get_source_code] *)

Lemma get_source_code_raise_cases (w : world)
    (BeautifulSoup : string → list node) (uri tag : string) (e : exception) :
  _get_source_code w BeautifulSoup uri tag = Raise e →
  e = NotFoundFile uri ∨ e = NotFoundUrl uri ∨ e = AttributeError.
Proof.
  unfold _get_source_code, fetch, os_path.isfile, open_read.
  destruct (os_path.isabs uri).
  - destruct (files w !! uri) as [[contents|]|]; simpl.
    + intros ->%extract_raises. auto.
    + intros [= <-]. auto.
    + intros [= <-]. auto.
  - destruct (urlopen_read w uri) as [err|contents]; simpl.
    + intros [= <-]. auto.
    + intros ->%extract_raises. auto.
Qed.



(** ** The stages of [get_source_code] together *)

Lemma get_module_tag_Return (namespace directive : string) :
  ∃ path tag, _get_module_tag namespace directive = Return (path, tag).
Proof.
  unfold _get_module_tag. case_decide; [eauto|].
  destruct (index_last_is_Return (Py.str_split "." namespace)) as [x ->];
    [apply str_split_not_nil|]. simpl. eauto.
Qed.

Lemma get_project_url_root_elem (uri : string) (roots : list string) :
  _get_project_url_root uri roots ≠ EmptyString →
  _get_project_url_root uri roots ∈ roots ∧
  is_prefix (_get_project_url_root uri roots) uri.
Proof.
  induction roots as [|root roots IH]; simpl; [done|].
  destruct (Py.startswith uri root) eqn:E.
  - intros _. split; [left|]. by apply startswith_is_prefix.
  - intros Hne. destruct (IH Hne) as [Hin Hprefix]. split; [by right|done].
Qed.

Lemma get_project_url_root_skip (uri : string) (roots : list string) :
  EmptyString ∈ roots →
  (∀ r, r ∈ roots → r ≠ EmptyString → ¬ is_prefix r uri) →
  _get_project_url_root uri roots = EmptyString.
Proof.
  intros _ Hothers.
  destruct (decide (_get_project_url_root uri roots = EmptyString))
    as [|Hne]; [done|].
  destruct (get_project_url_root_elem uri roots Hne) as [Hin Hprefix].
  by destruct (Hothers _ Hin Hne).
Qed.

Lemma isabs_app (root rest : string) :
  root ≠ EmptyString → os_path.isabs (root +:+ rest) = os_path.isabs root.
Proof. by destruct root. Qed.

Lemma sorted_order (xs ys : list string) :
  xs ≡ₚ ys → Py.sorted xs = Py.sorted ys.
Proof.
  intros Hperm. apply (Sorted_unique String.le); try apply sorted_Sorted.
  by rewrite !sorted_Permutation.
Qed.

Section stages.

Variable APPLICATION : option application.
Variable iter : gset string → list string.
Hypothesis iter_elements : ∀ X, iter X ≡ₚ elements X.
Variable w : world.
Variable BeautifulSoup : string → list node.

Lemma elem_of_iter (x : string) (X : gset string) : x ∈ iter X ↔ x ∈ X.
Proof using iter_elements. by rewrite iter_elements, elem_of_elements. Qed.



(** X7. A URI of the inventory without [#], or with more than one,
    makes [get_source_code] fail with [ValueError], whatever the
    configured roots, the files and the network are. *)
Theorem get_source_code_bad_uri (directive namespace uri : string) :
  lookup APPLICATION iter directive namespace = Return uri →
  Py.str_count "#" uri ≠ 1 →
  get_source_code APPLICATION iter w BeautifulSoup directive namespace
  = Raise ValueError ∧
  kind_of ValueError = None.
Proof.
  intros Hlookup Hcount. split; [|done].
  unfold get_source_code, locate_and_fetch. rewrite Hlookup. simpl.
  by rewrite uri_split_fault.
Qed.

(** X8. Once the URI is found and split and the roots are had,
    [get_source_code] fails with the "not in any project" error exactly
    when the root resolution returns the empty string; so it does when the
    empty string is a root and no other root is a prefix of the URL. *)
Theorem get_source_code_root_not_found
    (directive namespace url anchor : string) (roots : gset string) :
  lookup APPLICATION iter directive namespace
  = Return (url +:+ "#" +:+ anchor) →
  Py.str_count "#" url = 0 → Py.str_count "#" anchor = 0 →
  _get_all_intersphinx_roots APPLICATION = Return roots →
  ((∃ e, get_source_code APPLICATION iter w BeautifulSoup directive namespace
         = Raise e ∧ kind_of e = Some RootNotFound)
   ↔ _get_project_url_root url (iter roots) = EmptyString) ∧
  (EmptyString ∈ roots →
   (∀ r, r ∈ roots → r ≠ EmptyString → ¬ is_prefix r url) →
   get_source_code APPLICATION iter w BeautifulSoup directive namespace
   = Raise (EnvironmentError
              (UrlNotInProjects url (Py.sorted (iter roots))))).
Proof using iter_elements.
  intros Hlookup Hurl Hanchor Hroots.
  assert (get_source_code APPLICATION iter w BeautifulSoup directive namespace
          = let root := _get_project_url_root url (iter roots) in
            if decide (root = EmptyString) then
              Raise (EnvironmentError
                       (UrlNotInProjects url (Py.sorted (iter roots))))
            else
              '(module_path, tag) ← _get_module_tag anchor directive;
              _get_source_code w BeautifulSoup (root +:+ "/" +:+ module_path) tag)
    as ->.
  { unfold get_source_code, locate_and_fetch. rewrite Hlookup. simpl.
    change ("#" +:+ anchor) with (String "#" anchor).
    rewrite str_split_two by done. simpl. by rewrite Hroots. }
  simpl. split.
  - case_decide as Hroot; [split; [done|]; intros _; eauto|].
    split; [|done]. intros (e & He & Hkind).
    destruct (get_module_tag_Return anchor directive) as (path & tag & Htag).
    rewrite Htag in He. simpl in He.
    apply get_source_code_raise_cases in He as [->|[->| ->]]; done.
  - intros Hempty Hothers. rewrite decide_True; [done|].
    apply get_project_url_root_skip.
    + by rewrite iter_elements, elem_of_elements.
    + intros r Hr. apply Hothers.
      by rewrite iter_elements, elem_of_elements in Hr.
Qed.

(** X9. Once the URI is found and split and a root is found for it, the
    page that [get_source_code] reads is the root, a slash, and the path
    that [_get_module_tag] makes of the anchor.  The root is a configured
    root and a prefix of the URL, and it alone decides whether the page
    is read from the file system or asked from the network. *)
Theorem get_source_code_page
    (directive namespace url anchor : string) (roots : gset string) :
  lookup APPLICATION iter directive namespace
  = Return (url +:+ "#" +:+ anchor) →
  Py.str_count "#" url = 0 → Py.str_count "#" anchor = 0 →
  _get_all_intersphinx_roots APPLICATION = Return roots →
  _get_project_url_root url (iter roots) ≠ EmptyString →
  ∃ root path tag,
    root = _get_project_url_root url (iter roots) ∧
    root ∈ roots ∧ is_prefix root url ∧
    _get_module_tag anchor directive = Return (path, tag) ∧
    get_source_code APPLICATION iter w BeautifulSoup directive namespace
    = _get_source_code w BeautifulSoup (root +:+ "/" +:+ path) tag ∧
    os_path.isabs (root +:+ "/" +:+ path) = os_path.isabs root.
Proof using iter_elements.
  intros Hlookup Hurl Hanchor Hroots Hroot.
  destruct (get_module_tag_Return anchor directive) as (path & tag & Htag).
  destruct (get_project_url_root_elem url (iter roots) Hroot) as [Hin Hprefix].
  exists (_get_project_url_root url (iter roots)), path, tag.
  split; [done|]. split; [by apply elem_of_iter|].
  split; [done|]. split; [done|]. split; [|by apply isabs_app].
  unfold get_source_code, locate_and_fetch. rewrite Hlookup. simpl.
  change ("#" +:+ anchor) with (String "#" anchor).
  rewrite str_split_two by done. simpl. rewrite Hroots. simpl.
  rewrite decide_False by done. by rewrite Htag.
Qed.

End stages.


(** X11. What the lookup returns or raises, and the roots that the "not
    in any project" error lists, do not depend on the order in which
    Python iterates over the dictionaries and over the set. *)
Theorem lookup_order (APPLICATION : option application)
    (iter iter' : gset string → list string) :
  (∀ X, iter X ≡ₚ elements X) → (∀ X, iter' X ≡ₚ elements X) →
  (∀ directive namespace,
     lookup APPLICATION iter directive namespace
     = lookup APPLICATION iter' directive namespace) ∧
  (∀ roots : gset string, Py.sorted (iter roots) = Py.sorted (iter' roots)).
Proof.
  intros Hiter Hiter'.
  assert (∀ X, Py.sorted (iter X) = Py.sorted (iter' X)) as Hsorted.
  { intros X. apply sorted_order. by rewrite Hiter, Hiter'. }
  split; [|done]. intros directive namespace. unfold lookup.
  destruct (_get_app_inventory APPLICATION) as [cache|]; [|done]. simpl.
  case_decide; [done|].
  destruct (cache !! directive) as [data|]; simpl; by rewrite Hsorted.
Qed.

Lemma lookup_order_witness :
  lookup (Some example_app) elements "py:class" "pkg.mod.Cls"
  = lookup (Some example_app) (λ X, reverse (elements X)) "py:class" "pkg.mod.Cls".
Proof.
  apply (lookup_order (Some example_app) elements (λ X, reverse (elements X))).
  - intros X. reflexivity.
  - intros X. apply reverse_Permutation.
Defined.

(** ** The text that is extracted *)

Lemma strip_backlinks_node_inner (n : node) :
  strip_backlinks_node n = if is_backlink n then [] else [inner_strip n].
Proof. by destruct n. Qed.

Lemma matches_inner_strip (name key against : string) (n : node) :
  bs4.matches name key against (inner_strip n) = bs4.matches name key against n.
Proof. by destruct n. Qed.

Lemma descendants_strip_node (n : node) :
  strip_backlinks_node n ≫= bs4.self_and_descendants = inner_strip <$> visible n.
Proof.
  induction n as [s|u nm attrs cs IH] using node_ind'; [done|].
  cbn [strip_backlinks_node visible].
  destruct (is_backlink (Tag u nm attrs cs)); [done|].
  rewrite bind_singleton. cbn [bs4.self_and_descendants].
  rewrite fmap_cons. cbn [inner_strip]. f_equal.
  induction IH as [|c cs Hc _ IHcs]; [done|].
  by rewrite !bind_cons, bind_app, fmap_app, Hc, IHcs.
Qed.

Lemma descendants_strip (soup : list node) :
  bs4.descendants (strip_backlinks soup) = inner_strip <$> (soup ≫= visible).
Proof.
  unfold bs4.descendants, strip_backlinks.
  induction soup as [|n soup IH]; [done|].
  by rewrite !bind_cons, bind_app, fmap_app, descendants_strip_node, IH.
Qed.

Lemma getText_inner_strip (n : node) :
  bs4.getText (inner_strip n) = visible_text n.
Proof.
  induction n as [s|u nm attrs cs IH] using node_ind'; [done|].
  cbn [inner_strip bs4.getText visible_text].
  induction IH as [|c cs Hc _ IHcs]; [done|].
  rewrite bind_cons, foldr_app, IHcs. cbn [foldr].
  rewrite strip_backlinks_node_inner.
  destruct (is_backlink c); [done|]. cbn [foldr]. by rewrite Hc.
Qed.

(** X12. On a page whose elements are distinct objects, the text returned
    is that of the first [div] element with the tag for [id] that is not
    inside a back-link, without the text of the back-links inside it; and
    when no such element is outside the back-links, [AttributeError] is
    raised. *)
Theorem get_source_code_visible_text (w : world)
    (BeautifulSoup : string → list node) (uri tag contents : string) :
  fetch w uri = Return contents →
  NoDup (identities (BeautifulSoup contents)) →
  (∀ (before : list node) (n : node) (after : list node),
     BeautifulSoup contents ≫= visible = before ++ n :: after →
     Forall (λ m, bs4.matches "div" "id" tag m = false) before →
     bs4.matches "div" "id" tag n = true →
     _get_source_code w BeautifulSoup uri tag = Return (visible_text n)) ∧
  ((∀ m, m ∈ BeautifulSoup contents ≫= visible →
         bs4.matches "div" "id" tag m = false) →
   _get_source_code w BeautifulSoup uri tag = Raise AttributeError).
Proof.
  intros Hfetch Hnodup. unfold _get_source_code, extract. rewrite Hfetch.
  simpl. rewrite decompose_all_strip by done. split.
  - intros before n after Hsplit Hbefore Hn.
    rewrite (find_first _ _ _ _ (inner_strip <$> before) (inner_strip n)
               (inner_strip <$> after)).
    + by rewrite getText_inner_strip.
    + by rewrite descendants_strip, Hsplit, fmap_app.
    + apply Forall_fmap. eapply Forall_impl; [done|]. intros m Hm. simpl.
      by rewrite matches_inner_strip.
    + by rewrite matches_inner_strip.
  - intros Hnone. rewrite find_none; [done|]. intros m.
    rewrite descendants_strip. intros (m' & -> & Hm')%list_elem_of_fmap.
    rewrite matches_inner_strip. by apply Hnone.
Qed.

Lemma get_source_code_visible_text_witness :
  _get_source_code (one_file "/docs/_modules/pkg/mod.html" docs_page)
    HtmlLite.parse "/docs/_modules/pkg/mod.html" "pkg.mod.func"
  = Return "def func(): pass".
Proof.
  assert (fetch (one_file "/docs/_modules/pkg/mod.html" docs_page)
            "/docs/_modules/pkg/mod.html" = Return docs_page) as Hfetch
    by (vm_compute; reflexivity).
  assert (NoDup (identities (HtmlLite.parse docs_page))) as Hnodup
    by (apply (bool_decide_unpack _); vm_compute; exact I).
  destruct (get_source_code_visible_text _ HtmlLite.parse _ "pkg.mod.func"
              docs_page Hfetch Hnodup) as [Hfound _].
  pose proof (Hfound [] (Tag 0 "div" {[ "id" := AttrStr "pkg.mod.func" ]}
                           [Tag 1 "span" ∅ [NavigableString "def func():"];
                            Tag 2 "a" {[ "class" := AttrList ["viewcode-back"];
                                          "href" := AttrStr "api.html" ]}
                              [NavigableString "[docs]"];
                            NavigableString " pass"])
                [Tag 1 "span" ∅ [NavigableString "def func():"];
                 NavigableString "def func():"; NavigableString " pass"]) as H.
  apply H.
  - vm_compute. reflexivity.
  - constructor.
  - vm_compute. reflexivity.
Defined.

(** ** The further properties at work on the examples *)


Lemma get_source_code_bad_uri_witness :
  lookup (Some plain_app) elements "py:module" "pkg.mod"
  = Return "/docs/api/pkg.html" ∧
  get_source_code (Some plain_app) elements example_world HtmlLite.parse
    "py:module" "pkg.mod"
  = Raise ValueError.
Proof.
  assert (lookup (Some plain_app) elements "py:module" "pkg.mod"
          = Return "/docs/api/pkg.html") as Hlookup by (vm_compute; reflexivity).
  split; [exact Hlookup|].
  apply (get_source_code_bad_uri (Some plain_app) elements example_world
           HtmlLite.parse "py:module" "pkg.mod" "/docs/api/pkg.html" Hlookup).
  intros H. vm_compute in H. discriminate H.
Defined.

Lemma get_source_code_root_not_found_witness :
  ∃ e, get_source_code (Some example_app) elements example_world
         HtmlLite.parse "py:function" "pkg.mod.func" = Raise e ∧
       kind_of e = Some RootNotFound.
Proof.
  destruct (get_source_code_root_not_found (Some example_app) elements
              (λ X, Permutation_refl (elements X)) example_world
              HtmlLite.parse "py:function" "pkg.mod.func"
              "/elsewhere/api.html" "pkg.mod.func" {[ "/docs"; "/old/" ]})
    as [Hiff _].
  - vm_compute. reflexivity.
  - reflexivity.
  - reflexivity.
  - vm_compute. reflexivity.
  - apply Hiff. vm_compute. reflexivity.
Defined.

Lemma get_source_code_page_witness :
  ∃ root path tag,
    root ∈ ({[ "/docs"; "/old/" ]} : gset string) ∧
    get_source_code (Some example_app) elements example_world HtmlLite.parse
      "py:method" "pkg.mod.Cls.meth"
    = _get_source_code example_world HtmlLite.parse
        (root +:+ "/" +:+ path) tag.
Proof.
  destruct (get_source_code_page (Some example_app) elements
              (λ X, Permutation_refl (elements X)) example_world
              HtmlLite.parse "py:method" "pkg.mod.Cls.meth"
              "/docs/api/pkg.html" "pkg.mod.Cls.meth" {[ "/docs"; "/old/" ]})
    as (root & path & tag & _ & Hin & _ & _ & Hpage & _).
  - vm_compute. reflexivity.
  - reflexivity.
  - reflexivity.
  - vm_compute. reflexivity.
  - intros H. vm_compute in H. discriminate H.
  - exists root, path, tag. split; [exact Hin|exact Hpage].
Defined.


(** X13. A fault of [_get_all_intersphinx_roots] comes out of
    [get_source_code] as it is, once the URI is found and unpacked: with
    a value [None] in the mapping, the call for a known symbol fails with
    [TypeError]. *)
Theorem get_source_code_roots_fault (APPLICATION : option application)
    (iter : gset string → list string) (w : world)
    (BeautifulSoup : string → list node)
    (directive namespace uri : string) (e : exception) :
  lookup APPLICATION iter directive namespace = Return uri →
  Py.str_count "#" uri = 1 →
  _get_all_intersphinx_roots APPLICATION = Raise e →
  get_source_code APPLICATION iter w BeautifulSoup directive namespace
  = Raise e.
Proof.
  intros Hlookup Hcount Hroots. unfold get_source_code, locate_and_fetch.
  rewrite Hlookup. simpl.
  destruct (str_split_once "#" uri Hcount) as (url & anchor & -> & _).
  simpl. by rewrite Hroots.
Qed.

Lemma get_source_code_roots_fault_witness :
  _get_all_intersphinx_roots (Some none_app) = Raise TypeError ∧
  get_source_code (Some none_app) elements example_world HtmlLite.parse
    "py:method" "pkg.mod.Cls.meth"
  = Raise TypeError.
Proof.
  split; [reflexivity|].
  apply (get_source_code_roots_fault (Some none_app) elements example_world
           HtmlLite.parse "py:method" "pkg.mod.Cls.meth"
           "/docs/api/pkg.html#pkg.mod.Cls.meth").
  - vm_compute. reflexivity.
  - reflexivity.
  - reflexivity.
Defined.
